(** * CreeperCraft site: view logic of the React components

    A shallow embedding of the presentation logic of the site's components:
    the ban list filter and pagination ([BansSection.tsx]), the FAQ
    category filter and open-items set ([FAQSection.tsx]), the staff card
    toggle ([StaffSection]), the leaderboard slice ([RankingsSection]), the
    bundle carousel arrows ([ServerShopSection.tsx]), the hero text
    slider ([HeroSection]) and the simulated player counts ([App]).

    React state is modelled by explicit state passing: a component is a
    record of its [useState] cells, an event handler is a function from the
    state before the event to the state after it, and the values computed
    during a render are functions of the state. A render that throws is
    [None]. The [toLowerCase] of the platform, which the search of the ban
    list calls, is a parameter of the ban list ([JS.LowerCase]). *)

From Stdlib Require Import ZArith String Ascii List Lia Bool DecimalString Permutation.
From stdpp Require Import base tactics list gmap strings.

Local Open Scope Z_scope.

(** ** The JavaScript primitives the components use *)

Module JS.

(** JavaScript numbers are modelled by [Z]: every number the components
    compute is an integer far below 2^53 (an index, a length, a page
    number), where IEEE doubles are exact. Strings are modelled by
    [string]: a text is the sequence of the bytes of its UTF-8 form, one
    byte for each ASCII character. *)

(** Lower-casing of ASCII text: the letters A-Z (65-90) move to a-z, every
    other character is kept. *)
Definition lower_char (c : ascii) : ascii :=
  let n := N_of_ascii c in
  if ((65 <=? n) && (n <=? 90))%N then ascii_of_N (n + 32) else c.

Fixpoint toLowerCase_ascii (s : string) : string :=
  match s with
  | EmptyString => EmptyString
  | String c s' => String (lower_char c) (toLowerCase_ascii s')
  end.

(** A text all of whose characters are ASCII. *)
Fixpoint is_ascii (s : string) : bool :=
  match s with
  | EmptyString => true
  | String c s' => (N_of_ascii c <? 128)%N && is_ascii s'
  end.

(** [String.prototype.toLowerCase] is a function of the platform, which
    follows the case mappings of Unicode over every text; the components
    are modelled over any such function. What is used of it is that on
    ASCII text it is the lower-casing of the letters A-Z. *)
Class LowerCase := {
  toLowerCase : string -> string;
  toLowerCase_ascii_text :
    forall s, is_ascii s = true -> toLowerCase s = toLowerCase_ascii s
}.

(** The lower-casing that leaves every character outside ASCII as it is;
    the examples on the sample data, all ASCII, are evaluated with it. *)
Definition ascii_LowerCase : LowerCase :=
  {| toLowerCase := toLowerCase_ascii;
     toLowerCase_ascii_text := fun s _ => eq_refl |}.

(** [s.startsWith(t)]. *)
Fixpoint startsWith (s t : string) {struct t} : bool :=
  match t, s with
  | EmptyString, _ => true
  | String _ _, EmptyString => false
  | String b t', String a s' => Ascii.eqb a b && startsWith s' t'
  end.

(** [s.includes(t)]: [t] occurs in [s] at some position; the search tries
    position 0, then the positions of the tail. *)
Fixpoint includes (s t : string) : bool :=
  startsWith s t ||
  match s with
  | EmptyString => false
  | String _ s' => includes s' t
  end.

(** The clamping of a relative index that [Array.prototype.slice] applies
    to both of its arguments: a negative index counts from the end. *)
Definition relative_index (len k : Z) : Z :=
  if k <? 0 then Z.max (len + k) 0 else Z.min k len.

(** [l.slice(start, end)] for integer arguments. *)
Definition slice {A : Type} (l : list A) (start end_ : Z) : list A :=
  let len := Z.of_nat (length l) in
  let k := relative_index len start in
  let final := relative_index len end_ in
  take (Z.to_nat (Z.max (final - k) 0)) (drop (Z.to_nat k) l).

(** [Math.ceil(n / d)] for integers [n >= 0] and [d > 0]: the quotient,
    plus one when the division leaves a remainder. (The double [n / d] is
    within half an ulp of the exact quotient, which is at least [1 / d]
    away from the next integer unless it is one, so [Math.ceil] of the
    double is the ceiling of the exact quotient.) *)
Definition Math_ceil_div (n d : Z) : Z :=
  if n mod d =? 0 then n / d else n / d + 1.

(** [l.length]. *)
Definition length {A : Type} (l : list A) : Z := Z.of_nat (List.length l).

(** [l.filter(f)]: the elements on which [f] is truthy, in order. *)
Fixpoint filter {A : Type} (f : A -> bool) (l : list A) : list A :=
  match l with
  | [] => []
  | x :: l' => if f x then x :: filter f l' else filter f l'
  end.

(** [a % b] on integers: the remainder has the sign of the dividend. *)
Definition rem (a b : Z) : Z := Z.rem a b.

(** [Math.floor(n / d)] for integers [n >= 0] and [d > 0]; the double
    [n / d] is close enough to the exact quotient for the numbers of
    milliseconds between two dates. *)
Definition Math_floor_div (n d : Z) : Z := n / d.


(** An integer inside a template literal: its decimal digits, with a
    minus sign when negative. *)
Definition Number_toString (n : Z) : string :=
  NilZero.string_of_int (Z.to_int n).

(** [new Set(l)] on strings: the values are added one by one, a value the
    set already has is not added again, and the set keeps the order of
    insertion; [Array.from] lists it in that order. *)
Fixpoint Set_add_all (set : list string) (l : list string) : list string :=
  match l with
  | [] => set
  | x :: l' =>
      Set_add_all (if existsb (String.eqb x) set then set else set ++ [x]) l'
  end.

Definition Array_from_Set (l : list string) : list string := Set_add_all [] l.

(** [l.find(f)]: the first element on which [f] is truthy, or
    [undefined]. *)
Fixpoint find {A : Type} (f : A -> bool) (l : list A) : option A :=
  match l with
  | [] => None
  | x :: l' => if f x then Some x else find f l'
  end.

(** [l.reduce((sum, x) => sum + f(x), 0)]. *)
Definition reduce_sum {A : Type} (f : A -> Z) (l : list A) : Z :=
  fold_left (fun sum x => sum + f x) l 0.

End JS.

(** A [Date] built from a literal without a zone designator is a local
    civil time; only its fields are kept. *)
Record Date := mkDate {
  year : Z; month : Z; day : Z; hours : Z; minutes : Z; seconds : Z
}.

(** A union of string literals is an enumeration; [===] on its values
    compares the strings, which [tag] gives. *)
Class Tagged (A : Type) := tag : A -> string.

(** The filter states have the type ['all' | T] for an enumeration [T]. *)
Inductive OrAll (T : Type) : Type :=
  | all : OrAll T
  | only : T -> OrAll T.
Arguments all {T}.
Arguments only {T} _.

#[global] Instance OrAll_tagged {T : Type} `{Tagged T} : Tagged (OrAll T) :=
  fun f => match f with all => "all"%string | only t => tag t end.

(** [a === b] on two values of string-literal types. *)
Definition strict_eq {A B : Type} `{Tagged A} `{Tagged B} (a : A) (b : B) : bool :=
  String.eqb (tag a) (tag b).

(** [a === 'all']. *)
Definition is_all {A : Type} `{Tagged A} (a : A) : bool :=
  String.eqb (tag a) "all".

(** ** BansSection.tsx *)

Module Bans.

Inductive BanType := temporary | permanent.
Inductive Severity := minor | major | severe.
Inductive Status := active | expired | appealed.

#[global] Instance BanType_tagged : Tagged BanType :=
  fun t => match t with
           | temporary => "temporary"
           | permanent => "permanent"
           end%string.

#[global] Instance Severity_tagged : Tagged Severity :=
  fun s => match s with
           | minor => "minor"
           | major => "major"
           | severe => "severe"
           end%string.

#[global] Instance Status_tagged : Tagged Status :=
  fun s => match s with
           | active => "active"
           | expired => "expired"
           | appealed => "appealed"
           end%string.

(** [interface BanRecord]. *)
Record BanRecord := mkBan {
  id : Z;
  playerName : string;
  playerAvatar : string;
  bannedBy : string;
  bannedByAvatar : string;
  reason : string;
  bannedOn : Date;
  bannedUntil : option Date;
  banType : BanType;
  severity : Severity;
  status : Status
}.

(** [const banRecords], the sample data the component starts from. *)
Definition banRecords : list BanRecord := [
  mkBan 1 "GrieferKing99" "https://mc-heads.net/avatar/GrieferKing99/64"
    "AdminSteve" "https://mc-heads.net/avatar/AdminSteve/64"
    "Griefing spawn area and destroying player builds"
    (mkDate 2025 1 10 14 30 0) (Some (mkDate 2025 1 17 14 30 0))
    temporary major active;
  mkBan 2 "HackerPro2024" "https://mc-heads.net/avatar/HackerPro2024/64"
    "ModeratorAlex" "https://mc-heads.net/avatar/ModeratorAlex/64"
    "Using X-ray hacks and fly modifications"
    (mkDate 2025 1 9 20 15 0) None
    permanent severe active;
  mkBan 3 "ToxicPlayer123" "https://mc-heads.net/avatar/ToxicPlayer123/64"
    "AdminSteve" "https://mc-heads.net/avatar/AdminSteve/64"
    "Harassment and inappropriate language in chat"
    (mkDate 2025 1 9 16 45 0) (Some (mkDate 2025 1 12 16 45 0))
    temporary minor active;
  mkBan 4 "DupeExploit" "https://mc-heads.net/avatar/DupeExploit/64"
    "ModeratorSarah" "https://mc-heads.net/avatar/ModeratorSarah/64"
    "Exploiting item duplication glitches"
    (mkDate 2025 1 8 11 20 0) (Some (mkDate 2025 1 15 11 20 0))
    temporary major active;
  mkBan 5 "SpamBot2025" "https://mc-heads.net/avatar/SpamBot2025/64"
    "AutoMod" "https://mc-heads.net/avatar/AutoMod/64"
    "Automated spam detection - excessive chat flooding"
    (mkDate 2025 1 8 9 10 0) (Some (mkDate 2025 1 9 9 10 0))
    temporary minor expired;
  mkBan 6 "CheatEngine" "https://mc-heads.net/avatar/CheatEngine/64"
    "AdminSteve" "https://mc-heads.net/avatar/AdminSteve/64"
    "Multiple hacking violations and ban evasion"
    (mkDate 2025 1 7 19 30 0) None
    permanent severe active;
  mkBan 7 "BuildDestroyer" "https://mc-heads.net/avatar/BuildDestroyer/64"
    "ModeratorAlex" "https://mc-heads.net/avatar/ModeratorAlex/64"
    "Destroying community builds and monuments"
    (mkDate 2025 1 7 15 45 0) (Some (mkDate 2025 1 21 15 45 0))
    temporary major active;
  mkBan 8 "RuleBreaker" "https://mc-heads.net/avatar/RuleBreaker/64"
    "ModeratorSarah" "https://mc-heads.net/avatar/ModeratorSarah/64"
    "Repeated violations of server rules"
    (mkDate 2025 1 6 13 20 0) (Some (mkDate 2025 1 13 13 20 0))
    temporary minor active;
  mkBan 9 "PvPCheater" "https://mc-heads.net/avatar/PvPCheater/64"
    "AdminSteve" "https://mc-heads.net/avatar/AdminSteve/64"
    "Using combat hacks and kill aura"
    (mkDate 2025 1 5 21 15 0) (Some (mkDate 2025 1 19 21 15 0))
    temporary major active;
  mkBan 10 "AltAccount99" "https://mc-heads.net/avatar/AltAccount99/64"
    "AutoMod" "https://mc-heads.net/avatar/AutoMod/64"
    "Ban evasion using alternate account"
    (mkDate 2025 1 5 18 30 0) None
    permanent severe active
]%string.

(** The [useState] cells of the component. *)
Record State := mkState {
  bans : list BanRecord;
  searchTerm : string;
  filterType : OrAll BanType;
  filterSeverity : OrAll Severity;
  currentPage : Z;
  showUnbanModal : bool
}.

(** The state of the first render. *)
Definition initial : State :=
  mkState banRecords ""%string all all 1 false.

(** [const itemsPerPage = 5]. *)
Definition itemsPerPage : Z := 5.

Section Component.

(** The [toLowerCase] of the platform the component runs on. *)
Context {lower : JS.LowerCase}.

(** The callback given to [bans.filter]. *)
Definition matchesSearch (st : State) (ban : BanRecord) : bool :=
  JS.includes (JS.toLowerCase (playerName ban)) (JS.toLowerCase (searchTerm st)) ||
  JS.includes (JS.toLowerCase (reason ban)) (JS.toLowerCase (searchTerm st)) ||
  JS.includes (JS.toLowerCase (bannedBy ban)) (JS.toLowerCase (searchTerm st)).

Definition matchesType (st : State) (ban : BanRecord) : bool :=
  is_all (filterType st) || strict_eq (banType ban) (filterType st).

Definition matchesSeverity (st : State) (ban : BanRecord) : bool :=
  is_all (filterSeverity st) || strict_eq (severity ban) (filterSeverity st).

Definition keeps (st : State) (ban : BanRecord) : bool :=
  matchesSearch st ban && matchesType st ban && matchesSeverity st ban.

Definition filteredBans (st : State) : list BanRecord :=
  JS.filter (keeps st) (bans st).

(** The pagination computed from a filtered list, for a page size and a
    page number: [totalPages], [startIndex] and the page. The component
    calls it with [itemsPerPage] and [currentPage]. *)
Definition totalPagesOf {A : Type} (filtered : list A) (pageSize : Z) : Z :=
  JS.Math_ceil_div (JS.length filtered) pageSize.

Definition startIndexOf (pageSize page : Z) : Z := (page - 1) * pageSize.

Definition pageOf {A : Type} (filtered : list A) (pageSize page : Z) : list A :=
  JS.slice filtered (startIndexOf pageSize page)
                    (startIndexOf pageSize page + pageSize).

Definition totalPages (st : State) : Z :=
  totalPagesOf (filteredBans st) itemsPerPage.

Definition startIndex (st : State) : Z :=
  startIndexOf itemsPerPage (currentPage st).

Definition paginatedBans (st : State) : list BanRecord :=
  pageOf (filteredBans st) itemsPerPage (currentPage st).

(** The numbers on the page buttons:
    [Array.from({ length: totalPages }, (_, i) => i + 1)]. *)
Definition pageNumbersOf (totalPages : Z) : list Z :=
  map (fun i : nat => Z.of_nat i + 1) (seq 0 (Z.to_nat totalPages)).

Definition pageNumbers (st : State) : list Z :=
  pageNumbersOf (totalPages st).

(** The events of the component: the [onChange] handlers of the search box
    and of the two selects, the button that opens the modal and the one
    that closes it, and the three kinds of pagination buttons. *)
Inductive Event :=
  | ChangeSearch (value : string)
  | ChangeType (value : OrAll BanType)
  | ChangeSeverity (value : OrAll Severity)
  | OpenUnbanModal
  | CloseUnbanModal
  | ClickPrevious
  | ClickPage (page : Z)
  | ClickNext.

(** Whether the render of [st] offers the event: the pagination block is
    rendered only when [totalPages > 1], a [disabled] button does not fire,
    there is one page button for each of [1 .. totalPages], and the close
    button exists only inside the modal. *)
Definition enabled (st : State) (e : Event) : bool :=
  match e with
  | ChangeSearch _ | ChangeType _ | ChangeSeverity _ | OpenUnbanModal => true
  | CloseUnbanModal => showUnbanModal st
  | ClickPrevious => (1 <? totalPages st) && negb (currentPage st =? 1)
  | ClickPage page => (1 <? totalPages st) && (1 <=? page) && (page <=? totalPages st)
  | ClickNext => (1 <? totalPages st) && negb (currentPage st =? totalPages st)
  end.

Definition set_searchTerm (v : string) (st : State) : State :=
  mkState (bans st) v (filterType st) (filterSeverity st) (currentPage st) (showUnbanModal st).
Definition set_filterType (v : OrAll BanType) (st : State) : State :=
  mkState (bans st) (searchTerm st) v (filterSeverity st) (currentPage st) (showUnbanModal st).
Definition set_filterSeverity (v : OrAll Severity) (st : State) : State :=
  mkState (bans st) (searchTerm st) (filterType st) v (currentPage st) (showUnbanModal st).
Definition set_currentPage (v : Z) (st : State) : State :=
  mkState (bans st) (searchTerm st) (filterType st) (filterSeverity st) v (showUnbanModal st).
Definition set_showUnbanModal (v : bool) (st : State) : State :=
  mkState (bans st) (searchTerm st) (filterType st) (filterSeverity st) (currentPage st) v.

(** The handler of each event. *)
Definition handle (e : Event) (st : State) : State :=
  match e with
  | ChangeSearch v => set_searchTerm v st
  | ChangeType v => set_filterType v st
  | ChangeSeverity v => set_filterSeverity v st
  | OpenUnbanModal => set_showUnbanModal true st
  | CloseUnbanModal => set_showUnbanModal false st
  | ClickPrevious => set_currentPage (Z.max (currentPage st - 1) 1) st
  | ClickPage page => set_currentPage page st
  | ClickNext => set_currentPage (Z.min (currentPage st + 1) (totalPages st)) st
  end.

(** One step of the component: an event offered by the current render is
    handled. *)
Inductive step : State -> State -> Prop :=
  | step_event st e : enabled st e = true -> step st (handle e st).

(** The states the component can be in. *)
Inductive reachable : State -> Prop :=
  | reachable_initial : reachable initial
  | reachable_step st st' : reachable st -> step st st' -> reachable st'.

(** [stats], computed over all the bans of the state: the active bans, the
    permanent active bans and the bans issued on the day of the render.
    [today] is the [new Date()] of the render; two dates have the same
    [toDateString()] when they have the same year, month and day. (The
    fourth field, [fairPlayRate], is the constant 99.2.) *)
Definition sameDateString (a b : Date) : bool :=
  (year a =? year b) && (month a =? month b) && (day a =? day b).

Definition stats_active (st : State) : Z :=
  JS.length (JS.filter (fun ban => String.eqb (tag (status ban)) "active") (bans st)).

Definition stats_permanent (st : State) : Z :=
  JS.length (JS.filter (fun ban => String.eqb (tag (banType ban)) "permanent" &&
                                   String.eqb (tag (status ban)) "active") (bans st)).

Definition stats_today (today : Date) (st : State) : Z :=
  JS.length (JS.filter (fun ban => sameDateString (bannedOn ban) today) (bans st)).

(** [formatTimeRemaining]. [getTime] gives the milliseconds since the epoch
    of a date and [now] is the [new Date()] of the call. *)
Definition formatTimeRemaining (getTime : Date -> Z) (now : Date)
    (bannedUntil : option Date) : string :=
  match bannedUntil with
  | None => "Permanent"
  | Some bannedUntil =>
      let diff := getTime bannedUntil - getTime now in
      if diff <=? 0 then "Expired"
      else
        let days := JS.Math_floor_div diff (1000 * 60 * 60 * 24) in
        let hours := JS.Math_floor_div (JS.rem diff (1000 * 60 * 60 * 24)) (1000 * 60 * 60) in
        if 0 <? days
        then JS.Number_toString days +:+ "d " +:+ JS.Number_toString hours +:+ "h"
        else JS.Number_toString hours +:+ "h"
  end.

(** [getSeverityColor], a [switch] on the string with a default. *)
Definition getSeverityColor (severity : string) : string :=
  if String.eqb severity "minor" then "bg-yellow-500/20 text-yellow-400 border-yellow-500/30"
  else if String.eqb severity "major" then "bg-orange-500/20 text-orange-400 border-orange-500/30"
  else if String.eqb severity "severe" then "bg-red-500/20 text-red-400 border-red-500/30"
  else "bg-gray-500/20 text-gray-400 border-gray-500/30".

(** [getStatusColor]. *)
Definition getStatusColor (status : string) : string :=
  if String.eqb status "active" then "bg-red-500/20 text-red-400"
  else if String.eqb status "expired" then "bg-green-500/20 text-green-400"
  else if String.eqb status "appealed" then "bg-blue-500/20 text-blue-400"
  else "bg-gray-500/20 text-gray-400".

End Component.

End Bans.


(** A rendered icon element, [<Name className="..." />]. *)
Record Icon := mkIcon { component : string; className : string }.

(** ** FAQSection.tsx *)

Module FAQ.

Inductive Category := general | gameplay | technical | payment | rules.

#[global] Instance Category_tagged : Tagged Category :=
  fun c => match c with
           | general => "general"
           | gameplay => "gameplay"
           | technical => "technical"
           | payment => "payment"
           | rules => "rules"
           end%string.

(** [interface FAQItem]. *)
Record FAQItem := mkFAQ {
  id : Z;
  question : string;
  answer : string;
  category : Category;
  icon : Icon
}.

(** [interface FAQCategory]. *)
Record FAQCategory := mkCategory {
  category_id : string;
  category_name : string;
  category_icon : Icon
}.

(** [const faqData]. *)
Definition faqData : list FAQItem := [
  mkFAQ 1
    "How do I join the CreeperCraft server?"
    "Simply add 'play.creepercraft.net' to your Minecraft server list and connect! Make sure you're using the latest version of Minecraft Java Edition. No mods or special setup required."
    general (mkIcon "Server" "w-5 h-5");
  mkFAQ 2
    "What version of Minecraft do you support?"
    "We support Minecraft Java Edition versions 1.19.x to 1.21.x. We recommend using the latest stable version for the best experience and access to all features."
    technical (mkIcon "Server" "w-5 h-5");
  mkFAQ 3
    "Is the server available 24/7?"
    "Yes! CreeperCraft runs 24/7 with 99.9% uptime. Our dedicated servers ensure you can play anytime, anywhere. We perform brief maintenance during off-peak hours when necessary."
    technical (mkIcon "Zap" "w-5 h-5");
  mkFAQ 4
    "What is Hardcore mode and how does it work?"
    "Our Hardcore mode features permanent death with high-stakes gameplay. When you die, you lose all items and must restart. However, VIP members get special resurrection abilities and item protection features."
    gameplay (mkIcon "Shield" "w-5 h-5");
  mkFAQ 5
    "Can I play with friends and create teams?"
    "Absolutely! You can create or join guilds with up to 20 members. Guild members can share resources, build together, and compete in guild wars. Use /guild create [name] to start your own guild."
    gameplay (mkIcon "Users" "w-5 h-5");
  mkFAQ 6
    "Are there any banned items or restrictions?"
    "We maintain a balanced gameplay experience by restricting certain overpowered items like bedrock, command blocks, and some enchanted items above level 5. TNT is limited in spawn areas but allowed in designated PvP zones."
    rules (mkIcon "Shield" "w-5 h-5");
  mkFAQ 7
    "What payment methods do you accept?"
    "We accept PayPal, credit/debit cards (Visa, MasterCard, American Express), and various digital payment methods. All transactions are secured with SSL encryption for your safety."
    payment (mkIcon "Coins" "w-5 h-5");
  mkFAQ 8
    "Do VIP ranks expire or are they permanent?"
    "VIP and SVIP ranks are monthly subscriptions that auto-renew. VIP Lifetime is a one-time purchase that never expires. You can cancel subscriptions anytime from your account dashboard."
    payment (mkIcon "Coins" "w-5 h-5");
  mkFAQ 9
    "Can I get a refund if I'm not satisfied?"
    "We offer a 7-day money-back guarantee for all purchases. If you're not completely satisfied with your VIP experience, contact our support team for a full refund within 7 days of purchase."
    payment (mkIcon "Coins" "w-5 h-5");
  mkFAQ 10
    "What are the main server rules?"
    "Key rules include: No griefing in safe zones, no cheating/hacking, respect all players, no spam in chat, and follow staff instructions. Breaking rules results in warnings, temporary bans, or permanent bans depending on severity."
    rules (mkIcon "Shield" "w-5 h-5");
  mkFAQ 11
    "How do I report a player or get help?"
    "Use /report [player] [reason] in-game, join our Discord support channel, or contact staff directly. We have 24/7 moderation and respond to reports within 30 minutes during peak hours."
    rules (mkIcon "HelpCircle" "w-5 h-5");
  mkFAQ 12
    "Can I stream or create content about the server?"
    "Yes! We encourage content creation. Tag us @CreeperCraft on social media and we might feature your content. Popular streamers can apply for our Creator Program for special perks and early access to updates."
    general (mkIcon "Users" "w-5 h-5")
]%string.

(** [const categories]. *)
Definition categories : list FAQCategory := [
  mkCategory "all" "All Questions" (mkIcon "HelpCircle" "w-4 h-4");
  mkCategory "general" "General" (mkIcon "Server" "w-4 h-4");
  mkCategory "gameplay" "Gameplay" (mkIcon "Shield" "w-4 h-4");
  mkCategory "technical" "Technical" (mkIcon "Zap" "w-4 h-4");
  mkCategory "payment" "Payment" (mkIcon "Coins" "w-4 h-4");
  mkCategory "rules" "Rules" (mkIcon "Users" "w-4 h-4")
]%string.

(** The [useState] cells: the category filter, a plain string, and the set
    of the ids of the open items, a [Set<number>]. *)
Record State := mkState {
  activeCategory : string;
  openItems : gset Z
}.

Definition initial : State := mkState "all" ∅.

(** [toggleItem]: a copy of the set of the current render is taken, the id
    is deleted from the copy when the copy has it and added to it
    otherwise, and the copy becomes the state. Each call is made from the
    render of the state it is applied to. *)
Definition toggleItem (id : Z) (st : State) : State :=
  let newOpenItems := openItems st in
  let newOpenItems :=
    if decide (id ∈ newOpenItems)
    then newOpenItems ∖ {[id]}
    else newOpenItems ∪ {[id]} in
  mkState (activeCategory st) newOpenItems.

(** The [onClick] of a category button. *)
Definition setActiveCategory (c : string) (st : State) : State :=
  mkState c (openItems st).

(** [filteredFAQs] over a list of items; the component computes it over
    [faqData]. *)
Definition filteredFAQsOf (data : list FAQItem) (activeCategory : string) : list FAQItem :=
  if String.eqb activeCategory "all"
  then data
  else JS.filter (fun item => String.eqb (tag (category item)) activeCategory) data.

Definition filteredFAQs (st : State) : list FAQItem :=
  filteredFAQsOf faqData (activeCategory st).

(** [openItems.has(item.id)], which decides whether the answer is shown. *)
Definition isOpen (st : State) (id : Z) : bool :=
  bool_decide (id ∈ openItems st).

(** The clicks of the component: a category button, or the header of a
    question. *)
Inductive Event :=
  | ClickCategory (category_id : string)
  | ClickQuestion (id : Z).

Definition handle (st : State) (e : Event) : State :=
  match e with
  | ClickCategory c => setActiveCategory c st
  | ClickQuestion id => toggleItem id st
  end.

(** The state after a sequence of clicks, first click first. *)
Definition run (events : list Event) (st : State) : State :=
  fold_left handle events st.

End FAQ.

(** ** StaffSection *)

Module Staff.

(** The [useState] cells: the role filter and the id of the one expanded
    card, [number | null]. *)
Record State := mkState {
  activeFilter : string;
  expandedCard : option Z
}.

Definition initial : State := mkState "all" None.

(** [expandedCard === memberId]: [null] is equal to no number. *)
Definition is_card (expandedCard : option Z) (memberId : Z) : bool :=
  match expandedCard with
  | Some c => c =? memberId
  | None => false
  end.

(** [toggleCard]; the two calls on the event do not touch the state. *)
Definition toggleCard (memberId : Z) (st : State) : State :=
  mkState (activeFilter st)
          (if is_card (expandedCard st) memberId then None else Some memberId).

(** [handleFilterChange]. *)
Definition handleFilterChange (roleType : string) (st : State) : State :=
  mkState roleType (expandedCard st).

(** [const isExpanded = expandedCard === member.id], per rendered card. *)
Definition isExpanded (st : State) (member_id : Z) : bool :=
  is_card (expandedCard st) member_id.

Inductive RoleType := owner | admin | moderator | helper | developer | builder.

#[global] Instance RoleType_tagged : Tagged RoleType :=
  fun r => match r with
           | owner => "owner"
           | admin => "admin"
           | moderator => "moderator"
           | helper => "helper"
           | developer => "developer"
           | builder => "builder"
           end%string.

(** [interface StaffMember]. *)
Record StaffMember := mkStaff {
  id : Z;
  name : string;
  role : string;
  roleType : RoleType;
  description : string;
  avatar : string;
  joinDate : string;
  experience : Z;
  specialties : list string;
  online : bool;
  timezone : string;
  contact : string;
  helpedPlayers : Z;
  quote : string
}.

(** [const staffMembers]. *)
Definition staffMembers : list StaffMember := [
  mkStaff 1 "CreeperKing" "Server Owner" owner
    "Founder and visionary behind CreeperCraft. Oversees all server operations and community growth."
    "https://mc-heads.net/avatar/CreeperKing/128" "2016-03-15" 8
    ["Server Management"; "Community Building"; "Strategic Planning"]
    true "EST" "Discord: CreeperKing#0001" 5000
    "Building the ultimate Minecraft experience, one block at a time.";
  mkStaff 2 "AdminSteve" "Head Administrator" admin
    "Senior administrator responsible for staff coordination and major server decisions."
    "https://mc-heads.net/avatar/AdminSteve/128" "2017-06-20" 6
    ["Staff Management"; "Policy Development"; "Conflict Resolution"]
    true "PST" "Discord: AdminSteve#0002" 3500
    "Fair play and fun for everyone!";
  mkStaff 3 "ModeratorAlex" "Senior Moderator" moderator
    "Experienced moderator specializing in player disputes and rule enforcement."
    "https://mc-heads.net/avatar/ModeratorAlex/128" "2018-09-10" 5
    ["Player Moderation"; "Rule Enforcement"; "Community Events"]
    false "GMT" "Discord: ModeratorAlex#0003" 2800
    "Keeping the peace so everyone can enjoy the game.";
  mkStaff 4 "ModeratorSarah" "Moderator" moderator
    "Dedicated moderator focusing on new player assistance and chat moderation."
    "https://mc-heads.net/avatar/ModeratorSarah/128" "2019-11-05" 4
    ["New Player Help"; "Chat Moderation"; "Tutorial Creation"]
    true "CET" "Discord: ModeratorSarah#0004" 2200
    "Every new player deserves a warm welcome!";
  mkStaff 5 "DevMaster" "Lead Developer" developer
    "Technical lead responsible for server plugins, features, and performance optimization."
    "https://mc-heads.net/avatar/DevMaster/128" "2017-12-01" 6
    ["Plugin Development"; "Server Optimization"; "Custom Features"]
    true "EST" "Discord: DevMaster#0005" 1500
    "Code is poetry, and servers are our canvas.";
  mkStaff 6 "BuilderPro" "Master Builder" builder
    "Creative architect designing spawn areas, dungeons, and custom structures."
    "https://mc-heads.net/avatar/BuilderPro/128" "2018-04-18" 5
    ["World Building"; "Architecture"; "Dungeon Design"]
    false "PST" "Discord: BuilderPro#0006" 1200
    "Every block tells a story.";
  mkStaff 7 "HelperBot" "Support Helper" helper
    "Friendly helper always ready to assist new players and answer questions."
    "https://mc-heads.net/avatar/HelperBot/128" "2020-02-14" 3
    ["Player Support"; "FAQ Assistance"; "Basic Troubleshooting"]
    true "GMT" "Discord: HelperBot#0007" 1800
    "No question is too small!";
  mkStaff 8 "EventMaster" "Event Coordinator" moderator
    "Organizes server events, competitions, and community activities."
    "https://mc-heads.net/avatar/EventMaster/128" "2019-07-22" 4
    ["Event Planning"; "Community Engagement"; "Prize Management"]
    true "CET" "Discord: EventMaster#0008" 2500
    "Life is better with events and celebrations!"
]%string.

(** [filteredStaff] over a list of members; the component computes it over
    [staffMembers]. *)
Definition filteredStaffOf (staffMembers : list StaffMember) (activeFilter : string)
    : list StaffMember :=
  if String.eqb activeFilter "all"
  then staffMembers
  else JS.filter (fun member => String.eqb (tag (roleType member)) activeFilter) staffMembers.

Definition filteredStaff (st : State) : list StaffMember :=
  filteredStaffOf staffMembers (activeFilter st).

(** [roleTypes], the filter buttons:
    [['all', ...Array.from(new Set(staffMembers.map(member => member.roleType)))]]. *)
Definition roleTypesOf (staffMembers : list StaffMember) : list string :=
  "all"%string :: JS.Array_from_Set (map (fun member => tag (roleType member)) staffMembers).

Definition roleTypes : list string := roleTypesOf staffMembers.



Definition stats_totalHelped (staffMembers : list StaffMember) : Z :=
  JS.reduce_sum helpedPlayers staffMembers.


End Staff.

(** ** data/rankings.ts and RankingsSection *)

Module Rankings.

(** [interface Player]. *)
Record Player := mkPlayer {
  name : string;
  level : Z;
  rank : Z;
  avatar : string
}.

Definition playerRankings : list Player := [
  mkPlayer "Sketchie" 1263 1 "https://mc-heads.net/avatar/Sketchie/64";
  mkPlayer "Bartas10256" 1263 2 "https://mc-heads.net/avatar/Bartas10256/64";
  mkPlayer "LordTricker" 1263 3 "https://mc-heads.net/avatar/LordTricker/64";
  mkPlayer "PlayerFour" 1250 4 "https://mc-heads.net/avatar/PlayerFour/64";
  mkPlayer "PlayerFive" 1240 5 "https://mc-heads.net/avatar/PlayerFive/64";
  mkPlayer "PlayerSix" 1230 6 "https://mc-heads.net/avatar/PlayerSix/64";
  mkPlayer "PlayerSeven" 1220 7 "https://mc-heads.net/avatar/PlayerSeven/64";
  mkPlayer "PlayerEight" 1210 8 "https://mc-heads.net/avatar/PlayerEight/64";
  mkPlayer "PlayerNine" 1200 9 "https://mc-heads.net/avatar/PlayerNine/64";
  mkPlayer "PlayerTen" 1190 10 "https://mc-heads.net/avatar/PlayerTen/64";
  mkPlayer "PlayerEleven" 1180 11 "https://mc-heads.net/avatar/PlayerEleven/64";
  mkPlayer "PlayerTwelve" 1170 12 "https://mc-heads.net/avatar/PlayerTwelve/64";
  mkPlayer "PlayerThirteen" 1160 13 "https://mc-heads.net/avatar/PlayerThirteen/64";
  mkPlayer "PlayerFourteen" 1150 14 "https://mc-heads.net/avatar/PlayerFourteen/64";
  mkPlayer "PlayerFifteen" 1140 15 "https://mc-heads.net/avatar/PlayerFifteen/64";
  mkPlayer "PlayerSixteen" 1130 16 "https://mc-heads.net/avatar/PlayerSixteen/64";
  mkPlayer "PlayerSeventeen" 1120 17 "https://mc-heads.net/avatar/PlayerSeventeen/64";
  mkPlayer "PlayerEighteen" 1110 18 "https://mc-heads.net/avatar/PlayerEighteen/64";
  mkPlayer "PlayerNineteen" 1100 19 "https://mc-heads.net/avatar/PlayerNineteen/64";
  mkPlayer "PlayerTwenty" 1090 20 "https://mc-heads.net/avatar/PlayerTwenty/64"
]%string.

Definition guildRankings : list Player := [
  mkPlayer "DragonSlayers" 5420 1 "https://mc-heads.net/avatar/DragonSlayers/64";
  mkPlayer "ShadowWarriors" 5380 2 "https://mc-heads.net/avatar/ShadowWarriors/64";
  mkPlayer "CrystalGuards" 5340 3 "https://mc-heads.net/avatar/CrystalGuards/64";
  mkPlayer "IronLegion" 5300 4 "https://mc-heads.net/avatar/IronLegion/64";
  mkPlayer "FireStorm" 5260 5 "https://mc-heads.net/avatar/FireStorm/64";
  mkPlayer "StormBreakers" 5220 6 "https://mc-heads.net/avatar/StormBreakers/64";
  mkPlayer "VoidHunters" 5180 7 "https://mc-heads.net/avatar/VoidHunters/64";
  mkPlayer "BloodMoon" 5140 8 "https://mc-heads.net/avatar/BloodMoon/64";
  mkPlayer "SkyRiders" 5100 9 "https://mc-heads.net/avatar/SkyRiders/64";
  mkPlayer "DarkKnights" 5060 10 "https://mc-heads.net/avatar/DarkKnights/64";
  mkPlayer "PhoenixRising" 5020 11 "https://mc-heads.net/avatar/PhoenixRising/64";
  mkPlayer "ThunderBolts" 4980 12 "https://mc-heads.net/avatar/ThunderBolts/64";
  mkPlayer "IceBreakers" 4940 13 "https://mc-heads.net/avatar/IceBreakers/64";
  mkPlayer "GoldenEagles" 4900 14 "https://mc-heads.net/avatar/GoldenEagles/64";
  mkPlayer "SilverWolves" 4860 15 "https://mc-heads.net/avatar/SilverWolves/64";
  mkPlayer "CrimsonTide" 4820 16 "https://mc-heads.net/avatar/CrimsonTide/64";
  mkPlayer "EmeraldGuard" 4780 17 "https://mc-heads.net/avatar/EmeraldGuard/64";
  mkPlayer "DiamondCrusher" 4740 18 "https://mc-heads.net/avatar/DiamondCrusher/64";
  mkPlayer "NetherLords" 4700 19 "https://mc-heads.net/avatar/NetherLords/64";
  mkPlayer "EnderWatch" 4660 20 "https://mc-heads.net/avatar/EnderWatch/64"
]%string.

Definition killRankings : list Player := [
  mkPlayer "DeathBringer" 2847 1 "https://mc-heads.net/avatar/DeathBringer/64";
  mkPlayer "SoulReaper" 2803 2 "https://mc-heads.net/avatar/SoulReaper/64";
  mkPlayer "BloodHunter" 2759 3 "https://mc-heads.net/avatar/BloodHunter/64";
  mkPlayer "WarMachine" 2715 4 "https://mc-heads.net/avatar/WarMachine/64";
  mkPlayer "KillStreak" 2671 5 "https://mc-heads.net/avatar/KillStreak/64";
  mkPlayer "Assassin" 2627 6 "https://mc-heads.net/avatar/Assassin/64";
  mkPlayer "Executioner" 2583 7 "https://mc-heads.net/avatar/Executioner/64";
  mkPlayer "Slayer" 2539 8 "https://mc-heads.net/avatar/Slayer/64";
  mkPlayer "Destroyer" 2495 9 "https://mc-heads.net/avatar/Destroyer/64";
  mkPlayer "Terminator" 2451 10 "https://mc-heads.net/avatar/Terminator/64";
  mkPlayer "Predator" 2407 11 "https://mc-heads.net/avatar/Predator/64";
  mkPlayer "Hunter" 2363 12 "https://mc-heads.net/avatar/Hunter/64";
  mkPlayer "Warrior" 2319 13 "https://mc-heads.net/avatar/Warrior/64";
  mkPlayer "Fighter" 2275 14 "https://mc-heads.net/avatar/Fighter/64";
  mkPlayer "Gladiator" 2231 15 "https://mc-heads.net/avatar/Gladiator/64";
  mkPlayer "Champion" 2187 16 "https://mc-heads.net/avatar/Champion/64";
  mkPlayer "Conqueror" 2143 17 "https://mc-heads.net/avatar/Conqueror/64";
  mkPlayer "Vanquisher" 2099 18 "https://mc-heads.net/avatar/Vanquisher/64";
  mkPlayer "Dominator" 2055 19 "https://mc-heads.net/avatar/Dominator/64";
  mkPlayer "Overlord" 2011 20 "https://mc-heads.net/avatar/Overlord/64"
]%string.

(** [getCurrentRankings], a [switch] on the active tab. *)
Definition getCurrentRankings (activeTab : string) : list Player :=
  if String.eqb activeTab "guilds" then guildRankings
  else if String.eqb activeTab "kills" then killRankings
  else playerRankings.

(** The entries under the podium: [currentRankings.slice(3, 20)]. *)
Definition leaderboardEntries (activeTab : string) : list Player :=
  JS.slice (getCurrentRankings activeTab) 3 20.

(** [interface TabConfig] and [const tabConfigs]. *)
Record TabConfig := mkTab {
  tab_id : string;
  label : string;
  dataLabel : string
}.

Definition tabConfigs : list TabConfig := [
  mkTab "players" "PLAYER RANKING" "Player Points";
  mkTab "guilds" "GUILD RANKING" "Guild Points";
  mkTab "kills" "KILL RANKING" "Kills"
]%string.

(** [getTabLabel]: [config?.dataLabel || 'Player Points'], where an absent
    tab and an empty label both give the default. *)
Definition getTabLabel (activeTab : string) : string :=
  match JS.find (fun tab => String.eqb (tab_id tab) activeTab) tabConfigs with
  | Some config => if String.eqb (dataLabel config) EmptyString then "Player Points" else dataLabel config
  | None => "Player Points"
  end.

(** [const positionColors]. *)
Record PositionColors := mkColors {
  first : string;
  second : string;
  third : string
}.

Definition positionColors : PositionColors :=
  mkColors "text-yellow-400 border-yellow-400"
           "text-light-gray border-light-gray"
           "text-orange-400 border-orange-400".

(** What [renderPodiumPosition] puts on the card of a podium place: the
    place, whether it is the featured first place, its colours and order
    class, and the avatar, the name and the level read from the player. *)
Record PodiumCard := mkCard {
  card_position : Z;
  card_isFirst : bool;
  card_colorClass : string;
  card_orderClass : string;
  card_avatar : string;
  card_name : string;
  card_level : Z
}.

(** [renderPodiumPosition]. The player is [currentRankings[i]], which is
    [undefined] past the end of the list; reading [player.avatar] of
    [undefined] throws a TypeError, here [None]. *)
Definition renderPodiumPosition (player : option Player) (position : Z)
    (orderClass : string) : option PodiumCard :=
  let isFirst := position =? 1 in
  let colorClass := if position =? 1 then first positionColors
                    else if position =? 2 then second positionColors
                    else third positionColors in
  match player with
  | None => None
  | Some player =>
      Some (mkCard position isFirst colorClass orderClass
                   (avatar player) (name player) (level player))
  end.

(** The podium and the list under it, as the render of the section builds
    them, in this order: the three podium cards, then the entries of
    [currentRankings.slice(3, 20)]. A TypeError thrown on the way ends the
    render, here [None]. *)
Definition renderBoardOf (currentRankings : list Player)
    : option (list PodiumCard * list Player) :=
  match renderPodiumPosition (currentRankings !! 0%nat) 1 "order-1 md:order-2" with
  | None => None
  | Some card1 =>
      match renderPodiumPosition (currentRankings !! 1%nat) 2 "order-2 md:order-1" with
      | None => None
      | Some card2 =>
          match renderPodiumPosition (currentRankings !! 2%nat) 3 "order-3 md:order-3" with
          | None => None
          | Some card3 => Some ([card1; card2; card3], JS.slice currentRankings 3 20)
          end
      end
  end.

Definition renderBoard (activeTab : string) : option (list PodiumCard * list Player) :=
  renderBoardOf (getCurrentRankings activeTab).

End Rankings.

(** ** data/bundles.ts and the carousel of ServerShopSection.tsx *)

Module Shop.

(** [interface Bundle]. Text outside ASCII is kept as its UTF-8 bytes. *)
Record Bundle := mkBundle {
  name : string;
  price : string;
  items : list string
}.

Definition bundles : list Bundle := [
  mkBundle "Starter Pack" "€50" ["📦"; "⚔️"; "🛡️"; "🍖"];
  mkBundle "Warrior Pack" "€75" ["⚔️"; "🏹"; "🛡️"; "💎"];
  mkBundle "Elite Pack" "€100" ["👑"; "💎"; "🔥"; "⭐"]
]%string.

(** The two arrows of the carousel, over a list of slides; the component
    uses them over [bundles]. The state [activeSlide] is a cell of [App],
    [useState(0)], handed down with its setter. *)
Definition previousSlide {A : Type} (bundles : list A) (activeSlide : Z) : Z :=
  if 0 <? activeSlide then activeSlide - 1 else JS.length bundles - 1.

Definition nextSlide {A : Type} (bundles : list A) (activeSlide : Z) : Z :=
  if activeSlide <? JS.length bundles - 1 then activeSlide + 1 else 0.

Inductive Arrow := Previous | Next.

Definition click {A : Type} (bundles : list A) (activeSlide : Z) (a : Arrow) : Z :=
  match a with
  | Previous => previousSlide bundles activeSlide
  | Next => nextSlide bundles activeSlide
  end.

(** The slide after a sequence of clicks, first click first. *)
Definition clicks {A : Type} (bundles : list A) (arrows : list Arrow) (activeSlide : Z) : Z :=
  fold_left (click bundles) arrows activeSlide.

Definition initialSlide : Z := 0.

End Shop.

(** ** The text slider of HeroSection *)

Module Hero.

(** [interface SliderText]. *)
Record SliderText := mkSliderText {
  text : string;
  highlight : string;
  suffix : string
}.

Definition sliderTexts : list SliderText := [
  mkSliderText "Join our dynamic game and experience the best gameplay in " "Hardcore" " mode";
  mkSliderText "Battle in epic " "guild wars" " and claim your territory";
  mkSliderText "Explore vast worlds with custom " "dungeons" " and bosses";
  mkSliderText "Build your empire and dominate the " "leaderboards" "";
  mkSliderText "Experience premium features with " "VIP ranks" "";
  mkSliderText "Compete in " "tournaments" " and win exclusive rewards"
]%string.

(** The updater the interval gives to [setCurrentTextIndex], every four
    seconds, over a list of texts; the component uses it over
    [sliderTexts]. *)
Definition tick {A : Type} (sliderTexts : list A) (prev : Z) : Z :=
  JS.rem (prev + 1) (JS.length sliderTexts).

(** The index after [n] ticks. *)
Definition ticks {A : Type} (sliderTexts : list A) (n : nat) (index : Z) : Z :=
  Nat.iter n (tick sliderTexts) index.

(** The index of the text that slides out, computed during the render. *)
Definition previousIndex {A : Type} (sliderTexts : list A) (currentTextIndex : Z) : Z :=
  JS.rem (currentTextIndex - 1 + JS.length sliderTexts) (JS.length sliderTexts).

Definition initialIndex : Z := 0.

End Hero.

(** ** App: the simulated player counts *)

Module App.

(** The two counters of [App], [useState(260)] and [useState(139)]. *)
Record Counts := mkCounts {
  playerCount : Z;
  onlineCount : Z
}.

Definition initial : Counts := mkCounts 260 139.

(** [Math.floor(Math.random() * 3)] is one of 0, 1 and 2: the draw is in
    [0, 1), and three times a double below 1 is a double below 3. *)
Inductive Draw := Zero | One | Two.

Definition draw_value (d : Draw) : Z :=
  match d with Zero => 0 | One => 1 | Two => 2 end.

(** One firing of the interval, every five seconds: each counter moves by
    its own draw, [prev + Math.floor(Math.random() * 3) - 1]. *)
Definition tick (draws : Draw * Draw) (c : Counts) : Counts :=
  mkCounts (playerCount c + draw_value (fst draws) - 1)
           (onlineCount c + draw_value (snd draws) - 1).

(** The counters after the firings whose draws are listed, first firing
    first. *)
Definition ticks (draws : list (Draw * Draw)) (c : Counts) : Counts :=
  fold_left (fun c d => tick d c) draws c.

End App.

(** ** Vocabulary of the properties *)

(** [t] occurs in [s]: some text before it and some text after it make up
    [s]. *)
Definition occurs_in (t s : string) : Prop :=
  exists pre post, s = String.append pre (String.append t post).







(** The number of clicks on the question [id] in a sequence of clicks. *)
Definition question_clicks (id : Z) (events : list FAQ.Event) : nat :=
  length (List.filter (fun e => match e with
                                | FAQ.ClickQuestion j => j =? id
                                | FAQ.ClickCategory _ => false
                                end) events).

(** * Properties *)

(** ** Strings *)

Lemma startsWith_spec (s t : string) :
  JS.startsWith s t = true <-> exists post, s = String.append t post.
Proof.
  revert s; induction t as [|b t IH]; intros s; simpl.
  - split; [intros _; exists s; reflexivity | reflexivity].
  - destruct s as [|a s]; simpl.
    + split; [discriminate | intros [post H]; discriminate].
    + rewrite andb_true_iff, Ascii.eqb_eq, IH. split.
      * intros [-> [post ->]]. exists post. reflexivity.
      * intros [post H]. injection H as -> ->. split; [reflexivity | eauto].
Qed.

Lemma includes_spec (s t : string) :
  JS.includes s t = true <-> occurs_in t s.
Proof.
  unfold occurs_in. induction s as [|a s IH].
  - cbn [JS.includes]. rewrite orb_false_r, startsWith_spec. split.
    + intros [post H]. exists EmptyString, post. exact H.
    + intros [[|c pre] [post H]]; [eauto | discriminate].
  - cbn [JS.includes]. rewrite orb_true_iff, startsWith_spec, IH. split.
    + intros [[post H] | [pre [post H]]].
      * exists EmptyString, post. exact H.
      * exists (String a pre), post. simpl. rewrite H. reflexivity.
    + intros [[|c pre] [post H]].
      * left. exists post. exact H.
      * right. simpl in H. injection H as _ ->. eauto.
Qed.

Lemma includes_empty (s : string) : JS.includes s EmptyString = true.
Proof. apply includes_spec. exists EmptyString, s. reflexivity. Qed.

(** ** Lower-casing and the comparison that ignores case *)










Lemma toLowerCase_empty {lower : JS.LowerCase} :
  JS.toLowerCase EmptyString = EmptyString.
Proof. apply (JS.toLowerCase_ascii_text EmptyString). reflexivity. Qed.

(** ** Arrays *)

Lemma filter_In {A : Type} (f : A -> bool) (l : list A) (x : A) :
  In x (JS.filter f l) <-> In x l /\ f x = true.
Proof.
  induction l as [|y l IH]; simpl.
  - tauto.
  - destruct (f y) eqn:Hy; simpl; rewrite IH; split.
    + intros [-> | [H1 H2]]; auto.
    + intros [[-> | H1] H2]; auto.
    + intros [H1 H2]; auto.
    + intros [[-> | H1] H2]; [congruence | auto].
Qed.

Lemma filter_sublist {A : Type} (f : A -> bool) (l : list A) :
  sublist (JS.filter f l) l.
Proof.
  induction l as [|y l IH]; simpl.
  - constructor.
  - destruct (f y); constructor; exact IH.
Qed.

Lemma filter_all {A : Type} (f : A -> bool) (l : list A) :
  (forall x, In x l -> f x = true) -> JS.filter f l = l.
Proof.
  induction l as [|y l IH]; simpl; intros H.
  - reflexivity.
  - rewrite (H y) by auto. f_equal. apply IH. auto.
Qed.

(** A slice that starts at a non-negative index and spans [size] places
    drops the elements before the start and takes at most [size]. *)
Lemma slice_window {A : Type} (l : list A) (start size : Z) :
  0 <= start -> 0 <= size ->
  JS.slice l start (start + size) = take (Z.to_nat size) (drop (Z.to_nat start) l).
Proof.
  intros Hs Hz. unfold JS.slice, JS.relative_index.
  destruct (Z.ltb_spec start 0); [lia|].
  destruct (Z.ltb_spec (start + size) 0); [lia|].
  set (len := Z.of_nat (length l)).
  destruct (Z.le_gt_cases len start) as [Hout|Hin].
  - rewrite !drop_ge by lia. rewrite !take_nil. reflexivity.
  - rewrite (Z.min_l start len) by lia.
    destruct (Z.le_gt_cases (start + size) len) as [Hfit|Hcut].
    + rewrite Z.min_l by lia. f_equal. lia.
    + rewrite Z.min_r by lia.
      rewrite !take_ge; [reflexivity | rewrite length_drop; lia | rewrite length_drop; lia].
Qed.

(** [Math_ceil_div n d] is the ceiling of [n / d]: the one integer [k] with
    [d * (k - 1) < n <= d * k]. *)
Lemma Math_ceil_div_spec (n d : Z) :
  0 < d ->
  d * (JS.Math_ceil_div n d - 1) < n <= d * JS.Math_ceil_div n d.
Proof.
  intros Hd. unfold JS.Math_ceil_div.
  pose proof (Z.div_mod n d ltac:(lia)) as Hdm.
  pose proof (Z.mod_pos_bound n d Hd) as Hb.
  destruct (Z.eqb_spec (n mod d) 0); lia.
Qed.

Lemma Math_ceil_div_unique (n d k : Z) :
  0 < d -> d * (k - 1) < n <= d * k -> JS.Math_ceil_div n d = k.
Proof.
  intros Hd Hk. pose proof (Math_ceil_div_spec n d Hd) as H. nia.
Qed.

(** ** Pagination over any list and page size *)

Lemma pageOf_window {A : Type} (l : list A) (pageSize page : Z) :
  0 < pageSize -> 1 <= page ->
  Bans.pageOf l pageSize page =
  take (Z.to_nat pageSize) (drop (Z.to_nat ((page - 1) * pageSize)) l).
Proof.
  intros Hs Hp. unfold Bans.pageOf, Bans.startIndexOf.
  apply slice_window; nia.
Qed.

(** The first [k] windows of width [size], one after the other, are the
    first [k * size] elements. *)
Lemma windows_prefix {A : Type} (l : list A) (size k : nat) :
  concat (map (fun i => take size (drop (i * size) l)) (seq 0 k)) = take (k * size) l.
Proof.
  induction k as [|k IH].
  - reflexivity.
  - rewrite seq_S, map_app, concat_app, IH. simpl.
    rewrite app_nil_r, take_take_drop. f_equal. lia.
Qed.

Lemma pages_concat {A : Type} (l : list A) (pageSize : Z) :
  0 < pageSize ->
  concat (map (Bans.pageOf l pageSize)
              (Bans.pageNumbersOf (Bans.totalPagesOf l pageSize))) = l.
Proof.
  intros Hs. unfold Bans.pageNumbersOf, Bans.totalPagesOf, JS.length.
  pose proof (Math_ceil_div_spec (Z.of_nat (length l)) pageSize Hs) as Hc.
  set (T := JS.Math_ceil_div (Z.of_nat (length l)) pageSize) in *.
  rewrite map_map.
  rewrite (map_ext _ (fun i => take (Z.to_nat pageSize) (drop (i * Z.to_nat pageSize) l))).
  - rewrite windows_prefix. apply take_ge. nia.
  - intros i. rewrite pageOf_window by lia. do 2 f_equal. nia.
Qed.

(** ** The ban list *)

(** C1. For every list of ban records, search term, type filter, severity
    filter and page number [p >= 1], the pagination of [BansSection]
    yields [totalPages], the ceiling of the number of filtered records
    over the page size 5 (the one integer [k] with
    [5 * (k - 1) < count <= 5 * k], and 0 for an empty filtered list), and
    a page whose [i]-th element, for [i < 5], is the element of the
    filtered list at index [(p - 1) * 5 + i], with nothing from index 5 on:
    the elements at the indices from [(p - 1) * 5] up to [p * 5]; the page
    is empty when that range starts at or after the end of the filtered
    list. *)
Theorem bans_pagination {lower : JS.LowerCase} (st : Bans.State) :
  1 <= Bans.currentPage st ->
  let filtered := Bans.filteredBans st in
  let p := Bans.currentPage st in
  (5 * (Bans.totalPages st - 1) < Z.of_nat (length filtered) <= 5 * Bans.totalPages st) /\
  (filtered = [] -> Bans.totalPages st = 0) /\
  (forall i : nat,
      Bans.paginatedBans st !! i =
      if (i <? 5)%nat then filtered !! (Z.to_nat ((p - 1) * 5) + i)%nat else None) /\
  (Z.of_nat (length filtered) <= (p - 1) * 5 -> Bans.paginatedBans st = []).
Proof.
  intros Hp filtered p.
  assert (Hpage : Bans.paginatedBans st = take 5 (drop (Z.to_nat ((p - 1) * 5)) filtered)).
  { unfold Bans.paginatedBans. rewrite pageOf_window by (unfold Bans.itemsPerPage; lia).
    reflexivity. }
  split; [|split; [|split]].
  - apply (Math_ceil_div_spec (Z.of_nat (length filtered)) 5). lia.
  - intros Hnil. unfold Bans.totalPages. fold filtered. rewrite Hnil. reflexivity.
  - intros i. rewrite Hpage. destruct (Nat.ltb_spec i 5) as [Hi|Hi].
    + rewrite lookup_take_lt by exact Hi. apply lookup_drop.
    + apply lookup_take_ge. exact Hi.
  - intros Hout. rewrite Hpage, drop_ge by lia. reflexivity.
Qed.

Lemma bans_pagination_witness :
  1 <= Bans.currentPage Bans.initial /\
  Bans.paginatedBans (lower := JS.ascii_LowerCase) Bans.initial !! 4%nat =
  Bans.filteredBans (lower := JS.ascii_LowerCase) Bans.initial !! 4%nat.
Proof.
  split; [vm_compute; discriminate|].
  exact (proj1 (proj2 (proj2 (bans_pagination (lower := JS.ascii_LowerCase) Bans.initial
                                ltac:(vm_compute; discriminate)))) 4%nat).
Defined.

(** C2. For every record list and filter state, the pages for the page
    numbers 1 to [totalPages], one after the other, are the filtered list;
    the filtered list is the records of the input that the filter keeps,
    in the order of the input. *)
Theorem bans_pages_concat {lower : JS.LowerCase} (st : Bans.State) :
  concat (map (fun page => Bans.paginatedBans (Bans.set_currentPage page st))
              (Bans.pageNumbers st)) = Bans.filteredBans st /\
  sublist (Bans.filteredBans st) (Bans.bans st) /\
  (forall ban, In ban (Bans.filteredBans st) <->
               In ban (Bans.bans st) /\ Bans.keeps st ban = true).
Proof.
  split; [|split].
  - apply (pages_concat (Bans.filteredBans st) Bans.itemsPerPage). reflexivity.
  - apply filter_sublist.
  - intros ban. apply filter_In.
Qed.

Lemma bans_pages_concat_witness :
  Bans.paginatedBans (lower := JS.ascii_LowerCase) (Bans.set_currentPage 1 Bans.initial) ++
  Bans.paginatedBans (lower := JS.ascii_LowerCase) (Bans.set_currentPage 2 Bans.initial) ++ []
  = Bans.filteredBans (lower := JS.ascii_LowerCase) Bans.initial.
Proof.
  exact (proj1 (bans_pages_concat (lower := JS.ascii_LowerCase) Bans.initial)).
Defined.










(** On the sample data, severity ['severe'] and the search term "hack" keep
    the records 2 and 6. *)
Example bans_severe_hack :
  map Bans.id
      (Bans.filteredBans (lower := JS.ascii_LowerCase)
         (Bans.set_searchTerm "hack" (Bans.set_filterSeverity (only Bans.severe) Bans.initial)))
  = [2; 6].
Proof. vm_compute. reflexivity. Qed.

Lemma empty_filters_keep {lower : JS.LowerCase} (st : Bans.State) (ban : Bans.BanRecord) :
  Bans.searchTerm st = EmptyString ->
  Bans.filterType st = all ->
  Bans.filterSeverity st = all ->
  Bans.keeps st ban = true.
Proof.
  intros Hs Ht Hv. unfold Bans.keeps, Bans.matchesSearch, Bans.matchesType, Bans.matchesSeverity.
  rewrite Hs, Ht, Hv, toLowerCase_empty, includes_empty. reflexivity.
Qed.

(** C8. For every non-empty list of ban records, the filter with the empty
    search string and both selects on ['all'] keeps every record and
    returns the list unchanged; for every non-empty list of FAQ items, the
    category filter on ['all'] returns the list unchanged. *)
Theorem empty_filters_keep_all {lower : JS.LowerCase} :
  (forall st : Bans.State,
      Bans.bans st <> [] ->
      Bans.searchTerm st = EmptyString ->
      Bans.filterType st = all ->
      Bans.filterSeverity st = all ->
      (forall ban, Bans.keeps st ban = true) /\
      Bans.filteredBans st = Bans.bans st) /\
  (forall data : list FAQ.FAQItem,
      data <> [] ->
      FAQ.filteredFAQsOf data "all" = data).
Proof.
  split.
  - intros st _ Hs Ht Hv. split.
    + intros ban. apply empty_filters_keep; assumption.
    + apply filter_all. intros ban _. apply empty_filters_keep; assumption.
  - intros data _. reflexivity.
Qed.

Lemma empty_filters_keep_all_witness :
  Bans.filteredBans (lower := JS.ascii_LowerCase) Bans.initial = Bans.banRecords /\
  FAQ.filteredFAQs FAQ.initial = FAQ.faqData.
Proof.
  split.
  - apply (proj1 (empty_filters_keep_all (lower := JS.ascii_LowerCase)) Bans.initial);
      [discriminate | reflexivity ..].
  - apply (proj2 (empty_filters_keep_all (lower := JS.ascii_LowerCase)) FAQ.faqData).
    discriminate.
Defined.

(** With the empty search term only the two selects decide. *)
Lemma filteredBans_empty_search {lower : JS.LowerCase} (st : Bans.State) :
  Bans.searchTerm st = EmptyString ->
  Bans.filteredBans st =
  JS.filter (fun ban => Bans.matchesType st ban && Bans.matchesSeverity st ban)
            (Bans.bans st).
Proof.
  intros Hs. unfold Bans.filteredBans.
  induction (Bans.bans st) as [|ban l IH]; [reflexivity|]. simpl. rewrite IH.
  unfold Bans.keeps at 1, Bans.matchesSearch.
  rewrite Hs, toLowerCase_empty, !includes_empty. reflexivity.
Qed.

(** C10. In [BansSection], a change of the search term, of the type filter
    or of the severity filter leaves [currentPage] as it is; and the
    component can reach a state in which [currentPage] is above
    [totalPages] and the page shown is empty although the filtered list is
    not: from the first render, a click on page 2 and then the choice of
    the severity ['severe']. *)
Theorem filter_change_keeps_page {lower : JS.LowerCase} :
  (forall st v, Bans.currentPage (Bans.handle (Bans.ChangeSearch v) st) = Bans.currentPage st) /\
  (forall st v, Bans.currentPage (Bans.handle (Bans.ChangeType v) st) = Bans.currentPage st) /\
  (forall st v, Bans.currentPage (Bans.handle (Bans.ChangeSeverity v) st) = Bans.currentPage st) /\
  (exists st, Bans.reachable st /\
              Bans.totalPages st < Bans.currentPage st /\
              Bans.paginatedBans st = [] /\
              Bans.filteredBans st <> []).
Proof.
  split; [reflexivity|]. split; [reflexivity|]. split; [reflexivity|].
  exists (Bans.handle (Bans.ChangeSeverity (only Bans.severe))
            (Bans.handle (Bans.ClickPage 2) Bans.initial)).
  split; [|split; [|split]].
  - refine (Bans.reachable_step _ _
              (Bans.reachable_step _ _ Bans.reachable_initial
                 (Bans.step_event Bans.initial (Bans.ClickPage 2) _))
              (Bans.step_event _ (Bans.ChangeSeverity (only Bans.severe)) _)).
    + unfold Bans.enabled, Bans.totalPages.
      rewrite filteredBans_empty_search by reflexivity. reflexivity.
    + reflexivity.
  - unfold Bans.totalPages. rewrite filteredBans_empty_search by reflexivity.
    vm_compute. reflexivity.
  - unfold Bans.paginatedBans. rewrite filteredBans_empty_search by reflexivity.
    vm_compute. reflexivity.
  - rewrite filteredBans_empty_search by reflexivity. vm_compute. discriminate.
Qed.

Lemma filter_change_keeps_page_witness :
  exists st, Bans.reachable (lower := JS.ascii_LowerCase) st /\
             Bans.totalPages (lower := JS.ascii_LowerCase) st < Bans.currentPage st /\
             Bans.paginatedBans (lower := JS.ascii_LowerCase) st = [] /\
             Bans.filteredBans (lower := JS.ascii_LowerCase) st <> [].
Proof.
  exact (proj2 (proj2 (proj2 (filter_change_keeps_page (lower := JS.ascii_LowerCase))))).
Defined.

(** Every reachable state has a page number of at least 1. *)
Lemma reachable_page_positive {lower : JS.LowerCase} (st : Bans.State) :
  Bans.reachable st -> 1 <= Bans.currentPage st.
Proof.
  induction 1 as [|st st' Hr IH Hstep].
  - vm_compute. discriminate.
  - destruct Hstep as [st e He]. destruct e; simpl in *; try exact IH.
    + lia.
    + apply andb_true_iff in He as [He _]. apply andb_true_iff in He as [_ He]. lia.
    + apply andb_true_iff in He as [He _]. lia.
Qed.

(** ** The FAQ open-items set and the staff card *)

Lemma toggleItem_twice (id : Z) (st : FAQ.State) :
  FAQ.toggleItem id (FAQ.toggleItem id st) = st.
Proof.
  destruct st as [c s]. unfold FAQ.toggleItem. simpl. f_equal.
  destruct (decide (id ∈ s)) as [Hin|Hout].
  - rewrite decide_False by (rewrite elem_of_difference, elem_of_singleton; tauto).
    apply set_eq. intros x.
    rewrite elem_of_union, elem_of_difference, elem_of_singleton.
    destruct (decide (x = id)) as [->|Hx]; tauto.
  - rewrite decide_True by (rewrite elem_of_union, elem_of_singleton; tauto).
    apply set_eq. intros x.
    rewrite elem_of_difference, elem_of_union, elem_of_singleton.
    destruct (decide (x = id)) as [->|Hx]; tauto.
Qed.

(** C9. For every state of [FAQSection] and every two distinct ids [i] and
    [j], [toggleItem i] leaves the membership of [j] in the open-items set
    as it was. *)
Theorem toggleItem_frame (i j : Z) (st : FAQ.State) :
  i <> j ->
  (j ∈ FAQ.openItems (FAQ.toggleItem i st) <-> j ∈ FAQ.openItems st) /\
  FAQ.isOpen (FAQ.toggleItem i st) j = FAQ.isOpen st j.
Proof.
  intros Hne.
  assert (H : j ∈ FAQ.openItems (FAQ.toggleItem i st) <-> j ∈ FAQ.openItems st).
  { unfold FAQ.toggleItem. simpl. destruct (decide (i ∈ FAQ.openItems st)).
    - rewrite elem_of_difference, elem_of_singleton. intuition congruence.
    - rewrite elem_of_union, elem_of_singleton. intuition congruence. }
  split; [exact H|].
  unfold FAQ.isOpen. apply bool_decide_ext. exact H.
Qed.

Lemma toggleItem_frame_witness :
  FAQ.isOpen (FAQ.toggleItem 1 (FAQ.toggleItem 2 FAQ.initial)) 2 =
  FAQ.isOpen (FAQ.toggleItem 2 FAQ.initial) 2.
Proof.
  apply (proj2 (toggleItem_frame 1 2 (FAQ.toggleItem 2 FAQ.initial) ltac:(discriminate))).
Defined.

(** C4, as stated, fails for the staff section: with card 2 expanded, two
    calls of [toggleCard 1] leave no card expanded, so card 2 has gone from
    expanded to collapsed. *)
Lemma toggleCard_twice_counterexample :
  let before := Staff.toggleCard 2 Staff.initial in
  let after := Staff.toggleCard 1 (Staff.toggleCard 1 before) in
  after <> before /\
  Staff.isExpanded before 2 = true /\
  Staff.isExpanded after 2 = false.
Proof. vm_compute. repeat split; discriminate. Qed.

(** C4, amended. In the FAQ section, two calls of [toggleItem] with the
    same id restore the state, for every item. In the staff section, where
    one card at most is expanded, two calls of [toggleCard] with the same
    id restore the expansion of that id, and restore the state when no
    other card was expanded before; a different card that was expanded is
    collapsed by the first call and stays collapsed: after the two calls
    no card is expanded. *)
Theorem toggle_twice :
  (forall id st, FAQ.toggleItem id (FAQ.toggleItem id st) = st) /\
  (forall id st,
      Staff.isExpanded (Staff.toggleCard id (Staff.toggleCard id st)) id =
      Staff.isExpanded st id) /\
  (forall id st,
      Staff.expandedCard st = None \/ Staff.expandedCard st = Some id ->
      Staff.toggleCard id (Staff.toggleCard id st) = st) /\
  (forall id other st,
      Staff.expandedCard st = Some other -> other <> id ->
      Staff.isExpanded st other = true /\
      Staff.isExpanded (Staff.toggleCard id st) other = false /\
      Staff.isExpanded (Staff.toggleCard id (Staff.toggleCard id st)) other = false /\
      Staff.expandedCard (Staff.toggleCard id (Staff.toggleCard id st)) = None).
Proof.
  split; [exact toggleItem_twice|]. split; [|split].
  - intros id [f [c|]]; unfold Staff.toggleCard, Staff.isExpanded; cbn.
    + destruct (c =? id) eqn:E; cbn; rewrite ?Z.eqb_refl; cbn; rewrite ?Z.eqb_refl, ?E;
        reflexivity.
    + rewrite Z.eqb_refl. reflexivity.
  - intros id [f c] [H | H]; cbn in H; subst c; unfold Staff.toggleCard; cbn;
      rewrite ?Z.eqb_refl; cbn; rewrite ?Z.eqb_refl; reflexivity.
  - intros id other [f c] H Hne. cbn in H. subst c.
    unfold Staff.toggleCard, Staff.isExpanded. cbn.
    rewrite Z.eqb_refl. destruct (Z.eqb_spec other id) as [E|_]; [contradiction|]. cbn.
    rewrite Z.eqb_refl. cbn.
    destruct (Z.eqb_spec id other) as [E|_]; [congruence|]. auto.
Qed.

Lemma toggle_twice_witness :
  Staff.toggleCard 3 (Staff.toggleCard 3 Staff.initial) = Staff.initial /\
  Staff.expandedCard
    (Staff.toggleCard 1 (Staff.toggleCard 1 (Staff.toggleCard 2 Staff.initial))) = None.
Proof.
  split.
  - apply (proj1 (proj2 (proj2 toggle_twice)) 3 Staff.initial). left. reflexivity.
  - apply (proj2 (proj2 (proj2 toggle_twice)) 1 2 (Staff.toggleCard 2 Staff.initial));
      [reflexivity | discriminate].
Defined.

(** ** The cycling indices *)

Lemma length_pos {A : Type} (l : list A) : l <> [] -> 0 < JS.length l.
Proof. destruct l; [congruence | unfold JS.length; simpl; lia]. Qed.

Lemma nextSlide_mod {A : Type} (bundles : list A) (i : Z) :
  0 <= i < JS.length bundles ->
  Shop.nextSlide bundles i = (i + 1) mod JS.length bundles.
Proof.
  intros Hi. unfold Shop.nextSlide.
  destruct (Z.ltb_spec i (JS.length bundles - 1)).
  - rewrite Z.mod_small; lia.
  - replace (i + 1) with (JS.length bundles) by lia. rewrite Z.mod_same; lia.
Qed.

Lemma previousSlide_mod {A : Type} (bundles : list A) (i : Z) :
  0 <= i < JS.length bundles ->
  Shop.previousSlide bundles i = (i - 1 + JS.length bundles) mod JS.length bundles.
Proof.
  intros Hi. unfold Shop.previousSlide.
  destruct (Z.ltb_spec 0 i).
  - replace (i - 1 + JS.length bundles) with (i - 1 + 1 * JS.length bundles) by lia.
    rewrite Z.mod_add by lia. rewrite Z.mod_small; lia.
  - replace i with 0 by lia. rewrite Z.mod_small; lia.
Qed.

Lemma tick_mod {A : Type} (sliderTexts : list A) (i : Z) :
  0 < JS.length sliderTexts -> 0 <= i ->
  Hero.tick sliderTexts i = (i + 1) mod JS.length sliderTexts.
Proof.
  intros Hl Hi. unfold Hero.tick, JS.rem. apply Z.rem_mod_nonneg; lia.
Qed.

Lemma clicks_in_range {A : Type} (bundles : list A) (arrows : list Shop.Arrow) (i : Z) :
  0 <= i < JS.length bundles ->
  0 <= Shop.clicks bundles arrows i < JS.length bundles.
Proof.
  unfold Shop.clicks. revert i. induction arrows as [|a arrows IH]; intros i Hi; simpl.
  - exact Hi.
  - apply IH. destruct a; simpl.
    + rewrite previousSlide_mod by exact Hi. apply Z.mod_pos_bound. lia.
    + rewrite nextSlide_mod by exact Hi. apply Z.mod_pos_bound. lia.
Qed.

Lemma ticks_in_range {A : Type} (sliderTexts : list A) (n : nat) (i : Z) :
  0 <= i < JS.length sliderTexts ->
  0 <= Hero.ticks sliderTexts n i < JS.length sliderTexts.
Proof.
  intros Hi. unfold Hero.ticks. induction n as [|n IH]; simpl.
  - exact Hi.
  - rewrite tick_mod by lia. apply Z.mod_pos_bound. lia.
Qed.

(** C6. For every non-empty list of bundles and every non-empty list of
    slider texts, from the initial index 0, after any sequence of clicks
    on the carousel arrows and after any number of ticks of the slider,
    the index [i] is in the range from 0 up to the length; there the next
    arrow and the tick yield [(i + 1) mod length] and the previous arrow
    yields [(i - 1 + length) mod length]. *)
Theorem cycling_index_in_range {A B : Type} (bundles : list A) (sliderTexts : list B) :
  bundles <> [] ->
  sliderTexts <> [] ->
  (forall arrows,
      let i := Shop.clicks bundles arrows Shop.initialSlide in
      0 <= i < JS.length bundles /\
      Shop.nextSlide bundles i = (i + 1) mod JS.length bundles /\
      Shop.previousSlide bundles i = (i - 1 + JS.length bundles) mod JS.length bundles) /\
  (forall n,
      let i := Hero.ticks sliderTexts n Hero.initialIndex in
      0 <= i < JS.length sliderTexts /\
      Hero.tick sliderTexts i = (i + 1) mod JS.length sliderTexts).
Proof.
  intros Hb Ht. apply length_pos in Hb, Ht. split.
  - intros arrows i.
    assert (Hi : 0 <= i < JS.length bundles).
    { apply clicks_in_range. unfold Shop.initialSlide. lia. }
    auto using nextSlide_mod, previousSlide_mod.
  - intros n i.
    assert (Hi : 0 <= i < JS.length sliderTexts).
    { apply ticks_in_range. unfold Hero.initialIndex. lia. }
    split; [exact Hi | apply tick_mod; lia].
Qed.

Lemma cycling_index_in_range_witness :
  0 <= Shop.clicks Shop.bundles [Shop.Previous; Shop.Next; Shop.Next] 0 < 3 /\
  0 <= Hero.ticks Hero.sliderTexts 7 0 < 6.
Proof.
  pose proof (cycling_index_in_range Shop.bundles Hero.sliderTexts
                ltac:(discriminate) ltac:(discriminate)) as [Hc Hs].
  split.
  - exact (proj1 (Hc [Shop.Previous; Shop.Next; Shop.Next])).
  - exact (proj1 (Hs 7%nat)).
Defined.

Lemma iter_nextSlide {A : Type} (bundles : list A) (n : nat) (i : Z) :
  0 <= i < JS.length bundles ->
  Nat.iter n (Shop.nextSlide bundles) i = (i + Z.of_nat n) mod JS.length bundles.
Proof.
  intros Hi. induction n as [|n IH].
  - simpl. rewrite Z.add_0_r, Z.mod_small; lia.
  - rewrite Nat.iter_succ, IH.
    rewrite nextSlide_mod by (apply Z.mod_pos_bound; lia).
    rewrite Z.add_mod_idemp_l by lia. f_equal. lia.
Qed.

Lemma iter_tick {A : Type} (sliderTexts : list A) (n : nat) (i : Z) :
  0 <= i < JS.length sliderTexts ->
  Hero.ticks sliderTexts n i = (i + Z.of_nat n) mod JS.length sliderTexts.
Proof.
  intros Hi. unfold Hero.ticks. induction n as [|n IH].
  - simpl. rewrite Z.add_0_r, Z.mod_small; lia.
  - rewrite Nat.iter_succ, IH.
    rewrite tick_mod; [|lia|apply Z.mod_pos_bound; lia].
    rewrite Z.add_mod_idemp_l by lia. f_equal. lia.
Qed.

Lemma add_length_mod (i len : Z) : 0 <= i < len -> (i + len) mod len = i.
Proof.
  intros Hi. replace (i + len) with (i + 1 * len) by lia.
  rewrite Z.mod_add by lia. apply Z.mod_small. exact Hi.
Qed.

(** C7. From every index [i] in the range from 0 up to the length of the
    list, as many next transitions as the list has items bring the index
    back to [i]: for the next arrow of the bundle carousel and for the tick
    of the hero text slider. *)
Theorem cycle_closure {A B : Type} (bundles : list A) (sliderTexts : list B) (i : Z) :
  (0 <= i < JS.length bundles ->
   Nat.iter (length bundles) (Shop.nextSlide bundles) i = i) /\
  (0 <= i < JS.length sliderTexts ->
   Hero.ticks sliderTexts (length sliderTexts) i = i).
Proof.
  split; intros Hi.
  - rewrite iter_nextSlide by exact Hi. apply add_length_mod. exact Hi.
  - rewrite iter_tick by exact Hi. apply add_length_mod. exact Hi.
Qed.

Lemma cycle_closure_witness :
  Nat.iter 3 (Shop.nextSlide Shop.bundles) 2 = 2 /\
  Hero.ticks Hero.sliderTexts 6 2 = 2.
Proof.
  split.
  - apply (proj1 (cycle_closure Shop.bundles Hero.sliderTexts 2)). vm_compute. split; discriminate || reflexivity.
  - apply (proj2 (cycle_closure Shop.bundles Hero.sliderTexts 2)). vm_compute. split; discriminate || reflexivity.
Defined.

(** * Further properties of the components *)

(** ** The pages of the ban list *)

Lemma filter_length_le {A : Type} (f : A -> bool) (l : list A) :
  (length (JS.filter f l) <= length l)%nat.
Proof.
  induction l as [|x l IH]; simpl; [lia|]. destruct (f x); simpl; lia.
Qed.

Lemma filter_length_mono {A : Type} (f g : A -> bool) (l : list A) :
  (forall x, f x = true -> g x = true) ->
  (length (JS.filter f l) <= length (JS.filter g l))%nat.
Proof.
  intros Hfg. induction l as [|x l IH]; simpl; [lia|].
  destruct (f x) eqn:Hf.
  - rewrite (Hfg x Hf). simpl. lia.
  - destruct (g x); simpl; lia.
Qed.

Lemma paginatedBans_window {lower : JS.LowerCase} (st : Bans.State) :
  1 <= Bans.currentPage st ->
  Bans.paginatedBans st =
  take 5 (drop (Z.to_nat ((Bans.currentPage st - 1) * 5)) (Bans.filteredBans st)).
Proof.
  intros Hp. unfold Bans.paginatedBans.
  rewrite pageOf_window by (unfold Bans.itemsPerPage; lia). reflexivity.
Qed.

Lemma totalPages_spec {lower : JS.LowerCase} (st : Bans.State) :
  5 * (Bans.totalPages st - 1) < Z.of_nat (length (Bans.filteredBans st))
  <= 5 * Bans.totalPages st.
Proof. apply (Math_ceil_div_spec (Z.of_nat (length (Bans.filteredBans st))) 5). lia. Qed.

(** X1. Every page before the last one holds five records, the last page holds
    the rest, between one and five records, and a page past the last one
    is empty. *)
Theorem bans_page_sizes {lower : JS.LowerCase} (st : Bans.State) :
  1 <= Bans.currentPage st ->
  (Bans.currentPage st < Bans.totalPages st ->
   length (Bans.paginatedBans st) = 5%nat) /\
  (Bans.currentPage st = Bans.totalPages st ->
   (1 <= length (Bans.paginatedBans st) <= 5)%nat /\
   Z.of_nat (length (Bans.paginatedBans st)) =
   Z.of_nat (length (Bans.filteredBans st)) - 5 * (Bans.totalPages st - 1)) /\
  (Bans.totalPages st < Bans.currentPage st ->
   Bans.paginatedBans st = []).
Proof.
  intros Hp. pose proof (totalPages_spec st) as HT.
  rewrite (paginatedBans_window st Hp).
  split; [|split].
  - intros Hlt. rewrite length_take, length_drop. lia.
  - intros Heq. rewrite length_take, length_drop. lia.
  - intros Hgt. rewrite drop_ge by lia. reflexivity.
Qed.

Lemma bans_page_sizes_witness :
  length (Bans.paginatedBans (lower := JS.ascii_LowerCase) Bans.initial) = 5%nat.
Proof.
  apply (proj1 (bans_page_sizes (lower := JS.ascii_LowerCase) Bans.initial
                  ltac:(vm_compute; discriminate))).
  vm_compute. reflexivity.
Defined.

(** X2. The record at index [i] of the filtered list is shown on page
    [i / 5 + 1], at position [i mod 5] of that page; the page number is
    between 1 and [totalPages], one of the numbers of the page buttons,
    and the render offers its button whenever there is more than one
    page (with a single page no button is rendered, and the record is on
    page 1). *)
Theorem bans_record_page {lower : JS.LowerCase} (st : Bans.State) (i : nat)
    (ban : Bans.BanRecord) :
  Bans.filteredBans st !! i = Some ban ->
  let page := Z.of_nat (i / 5) + 1 in
  1 <= page <= Bans.totalPages st /\
  In page (Bans.pageNumbers st) /\
  (1 < Bans.totalPages st -> Bans.enabled st (Bans.ClickPage page) = true) /\
  (Bans.totalPages st <= 1 -> page = 1) /\
  Bans.paginatedBans (Bans.set_currentPage page st) !! (i mod 5)%nat = Some ban.
Proof.
  intros Hi page. pose proof (totalPages_spec st) as HT.
  assert (Hlt : (i < length (Bans.filteredBans st))%nat) by (eapply lookup_lt_Some; exact Hi).
  pose proof (Nat.div_mod_eq i 5) as Hdm.
  pose proof (Nat.mod_upper_bound i 5 ltac:(lia)) as Hm.
  assert (Hpage : 1 <= page <= Bans.totalPages st) by (unfold page; lia).
  split; [exact Hpage|]. split; [|split; [|split]].
  - unfold Bans.pageNumbers, Bans.pageNumbersOf. apply in_map_iff.
    exists (i / 5)%nat. split; [reflexivity|]. apply in_seq. lia.
  - intros HT1. unfold Bans.enabled.
    rewrite !andb_true_iff, Z.ltb_lt, !Z.leb_le. lia.
  - lia.
  - rewrite paginatedBans_window by (simpl; lia).
    change (Bans.filteredBans (Bans.set_currentPage page st)) with (Bans.filteredBans st).
    change (Bans.currentPage (Bans.set_currentPage page st)) with page.
    rewrite lookup_take_lt by exact Hm. rewrite lookup_drop.
    rewrite <- Hi. f_equal. unfold page. lia.
Qed.

Lemma bans_record_page_witness :
  Bans.id <$> Bans.paginatedBans (lower := JS.ascii_LowerCase)
                (Bans.set_currentPage 2 Bans.initial) !! 1%nat = Some 7.
Proof.
  pose proof (bans_record_page (lower := JS.ascii_LowerCase) Bans.initial 6) as H.
  specialize (H _ ltac:(vm_compute; reflexivity)).
  destruct H as (_ & _ & _ & _ & H). apply (f_equal (fmap Bans.id)) in H. exact H.
Defined.

(** ** The states the ban list can reach *)

Lemma totalPages_banRecords {lower : JS.LowerCase} (st : Bans.State) :
  Bans.bans st = Bans.banRecords -> Bans.totalPages st <= 2.
Proof.
  intros Hb. pose proof (totalPages_spec st) as HT.
  pose proof (filter_length_le (Bans.keeps st) (Bans.bans st)) as Hle.
  fold (Bans.filteredBans st) in Hle. rewrite Hb in Hle.
  change (length Bans.banRecords) with 10%nat in Hle. lia.
Qed.

Lemma reachable_invariant {lower : JS.LowerCase} (st : Bans.State) :
  Bans.reachable st ->
  Bans.bans st = Bans.banRecords /\ 1 <= Bans.currentPage st <= 2.
Proof.
  induction 1 as [|st st' Hr [Hb Hp] Hstep].
  - split; [reflexivity | vm_compute; split; discriminate].
  - destruct Hstep as [st e He].
    pose proof (totalPages_banRecords st Hb) as HT.
    destruct e; simpl in *; (split; [exact Hb|]); try exact Hp.
    + lia.
    + apply andb_true_iff in He as [He He3]. apply andb_true_iff in He as [_ He2]. lia.
    + apply andb_true_iff in He as [He _]. lia.
Qed.

(** X3. In every state the component can reach, the list of bans is the sample
    data (nothing calls [setBans]), the page number is 1 or 2, and the
    start index of the slice is not negative. *)
Theorem bans_reachable_page {lower : JS.LowerCase} (st : Bans.State) :
  Bans.reachable st ->
  Bans.bans st = Bans.banRecords /\
  1 <= Bans.currentPage st <= 2 /\
  0 <= Bans.startIndex st.
Proof.
  intros Hr. destruct (reachable_invariant st Hr) as [Hb Hp].
  split; [exact Hb|]. split; [exact Hp|].
  unfold Bans.startIndex, Bans.startIndexOf, Bans.itemsPerPage. lia.
Qed.

Lemma bans_reachable_page_witness :
  0 <= Bans.startIndex (Bans.handle (lower := JS.ascii_LowerCase)
                          (Bans.ClickPage 2) Bans.initial).
Proof.
  refine (proj2 (proj2 (bans_reachable_page (lower := JS.ascii_LowerCase) _ _))).
  refine (Bans.reachable_step _ _ Bans.reachable_initial
            (Bans.step_event Bans.initial (Bans.ClickPage 2) _)).
  reflexivity.
Defined.

(** X4. From a page number of at least 1, when the render offers them:
    the next button leads to a page between 1 and [totalPages], one page
    up, or [totalPages] from a page number above it; a page button sets
    its own number, between 1 and [totalPages]; the previous button moves
    exactly one page down, to a page of at least 1, which is within
    [totalPages] exactly when the page before was at most
    [totalPages + 1]. None of them changes the filtered list. In every
    state the component can reach, each pagination button it offers leads
    to a page between 1 and [totalPages]. *)
Theorem bans_pagination_clicks {lower : JS.LowerCase} (st : Bans.State) :
  1 <= Bans.currentPage st ->
  (Bans.enabled st Bans.ClickNext = true ->
   let st' := Bans.handle Bans.ClickNext st in
   1 <= Bans.currentPage st' <= Bans.totalPages st' /\
   (Bans.currentPage st < Bans.totalPages st ->
    Bans.currentPage st' = Bans.currentPage st + 1) /\
   (Bans.totalPages st < Bans.currentPage st ->
    Bans.currentPage st' = Bans.totalPages st)) /\
  (Bans.enabled st Bans.ClickPrevious = true ->
   let st' := Bans.handle Bans.ClickPrevious st in
   Bans.currentPage st' = Bans.currentPage st - 1 /\
   1 <= Bans.currentPage st' /\
   (Bans.currentPage st' <= Bans.totalPages st' <->
    Bans.currentPage st <= Bans.totalPages st + 1)) /\
  (forall page, Bans.enabled st (Bans.ClickPage page) = true ->
   let st' := Bans.handle (Bans.ClickPage page) st in
   Bans.currentPage st' = page /\
   1 <= Bans.currentPage st' <= Bans.totalPages st') /\
  (forall e, match e with
             | Bans.ClickNext | Bans.ClickPrevious | Bans.ClickPage _ =>
                 Bans.filteredBans (Bans.handle e st) = Bans.filteredBans st
             | _ => True
             end) /\
  (Bans.reachable st ->
   forall e, Bans.enabled st e = true ->
             match e with
             | Bans.ClickNext | Bans.ClickPrevious | Bans.ClickPage _ =>
                 1 <= Bans.currentPage (Bans.handle e st)
                 <= Bans.totalPages (Bans.handle e st)
             | _ => True
             end).
Proof.
  intros Hp. split; [|split; [|split; [|split]]].
  - intros He st'. apply andb_true_iff in He as [HT Hne].
    apply Z.ltb_lt in HT. subst st'.
    change (Bans.totalPages (Bans.handle Bans.ClickNext st)) with (Bans.totalPages st).
    simpl. lia.
  - intros He st'. apply andb_true_iff in He as [HT Hne].
    apply Z.ltb_lt in HT. apply negb_true_iff, Z.eqb_neq in Hne. subst st'.
    change (Bans.totalPages (Bans.handle Bans.ClickPrevious st)) with (Bans.totalPages st).
    simpl. lia.
  - intros page He st'. apply andb_true_iff in He as [He H3].
    apply andb_true_iff in He as [HT H2]. subst st'.
    change (Bans.totalPages (Bans.handle (Bans.ClickPage page) st)) with (Bans.totalPages st).
    simpl. lia.
  - intros []; exact I || reflexivity.
  - intros Hr e He. destruct (reachable_invariant st Hr) as [Hb Hp2].
    pose proof (totalPages_banRecords st Hb) as HT2.
    destruct e as [v|v|v| | | |page| ]; try exact I.
    + apply andb_true_iff in He as [HT Hne].
      apply Z.ltb_lt in HT. apply negb_true_iff, Z.eqb_neq in Hne.
      change (Bans.totalPages (Bans.handle Bans.ClickPrevious st)) with (Bans.totalPages st).
      simpl. lia.
    + apply andb_true_iff in He as [He H3]. apply andb_true_iff in He as [HT H2].
      change (Bans.totalPages (Bans.handle (Bans.ClickPage page) st))
        with (Bans.totalPages st).
      simpl. lia.
    + apply andb_true_iff in He as [HT Hne]. apply Z.ltb_lt in HT.
      change (Bans.totalPages (Bans.handle Bans.ClickNext st)) with (Bans.totalPages st).
      simpl. lia.
Qed.

Lemma bans_pagination_clicks_witness :
  Bans.currentPage (Bans.handle (lower := JS.ascii_LowerCase) Bans.ClickNext Bans.initial) = 2.
Proof.
  pose proof (bans_pagination_clicks (lower := JS.ascii_LowerCase) Bans.initial
                ltac:(vm_compute; discriminate)) as [H _].
  specialize (H ltac:(vm_compute; reflexivity)).
  destruct H as (_ & H & _). exact (H ltac:(vm_compute; reflexivity)).
Defined.

(** X5. In a state the component can reach, when the page shown is empty
    although the filter keeps records, the render offers no pagination
    button: only a change of the filters shows records again. *)
Theorem bans_empty_page_stuck {lower : JS.LowerCase} (st : Bans.State) :
  Bans.reachable st ->
  Bans.paginatedBans st = [] ->
  Bans.filteredBans st <> [] ->
  Bans.enabled st Bans.ClickPrevious = false /\
  Bans.enabled st Bans.ClickNext = false /\
  (forall page, Bans.enabled st (Bans.ClickPage page) = false).
Proof.
  intros Hr Hempty Hsome.
  destruct (reachable_invariant st Hr) as [Hb Hp].
  pose proof (totalPages_spec st) as HT.
  assert (Hlen : (0 < length (Bans.filteredBans st))%nat).
  { destruct (Bans.filteredBans st); [congruence | simpl; lia]. }
  rewrite paginatedBans_window in Hempty by lia.
  apply (f_equal (@length _)) in Hempty. rewrite length_take, length_drop in Hempty.
  change (length (@nil Bans.BanRecord)) with 0%nat in Hempty.
  assert (HT1 : (1 <? Bans.totalPages st) = false) by (apply Z.ltb_ge; lia).
  unfold Bans.enabled. rewrite HT1. auto.
Qed.

Lemma bans_empty_page_stuck_witness :
  Bans.enabled (lower := JS.ascii_LowerCase)
    (Bans.handle (lower := JS.ascii_LowerCase) (Bans.ChangeSeverity (only Bans.severe))
       (Bans.handle (lower := JS.ascii_LowerCase) (Bans.ClickPage 2) Bans.initial))
    Bans.ClickPrevious = false.
Proof.
  refine (proj1 (bans_empty_page_stuck (lower := JS.ascii_LowerCase) _ _ _ _)).
  - refine (Bans.reachable_step _ _
              (Bans.reachable_step _ _ Bans.reachable_initial
                 (Bans.step_event Bans.initial (Bans.ClickPage 2) _))
              (Bans.step_event _ (Bans.ChangeSeverity (only Bans.severe)) _));
      reflexivity.
  - vm_compute. reflexivity.
  - vm_compute. discriminate.
Defined.

(** ** The statistics of the ban list *)

(** X6. The permanent active bans are at most the active bans, which are at
    most all the bans, as are the bans of the day; and no event changes the
    three counts: they are taken over all the bans, whatever the filters
    and the page. *)
Theorem bans_stats_bounds {lower : JS.LowerCase} (st : Bans.State) (today : Date) :
  0 <= Bans.stats_permanent st <= Bans.stats_active st /\
  Bans.stats_active st <= JS.length (Bans.bans st) /\
  0 <= Bans.stats_today today st <= JS.length (Bans.bans st) /\
  (forall e,
      Bans.stats_active (Bans.handle e st) = Bans.stats_active st /\
      Bans.stats_permanent (Bans.handle e st) = Bans.stats_permanent st /\
      Bans.stats_today today (Bans.handle e st) = Bans.stats_today today st).
Proof.
  unfold Bans.stats_permanent, Bans.stats_active, Bans.stats_today, JS.length.
  split; [split; [lia|]|split; [|split; [split; [lia|]|]]].
  - apply inj_le, filter_length_mono. intros ban H.
    apply andb_true_iff in H as [_ H]. exact H.
  - apply inj_le, filter_length_le.
  - apply inj_le, filter_length_le.
  - intros []; repeat split; reflexivity.
Qed.

Lemma bans_stats_bounds_witness :
  0 <= Bans.stats_permanent Bans.initial <= Bans.stats_active Bans.initial /\
  Bans.stats_active
    (Bans.handle (lower := JS.ascii_LowerCase) (Bans.ChangeSearch "hack") Bans.initial)
  = Bans.stats_active Bans.initial.
Proof.
  pose proof (bans_stats_bounds (lower := JS.ascii_LowerCase) Bans.initial
                (mkDate 2025 1 9 0 0 0)) as (H1 & _ & _ & H2).
  split; [exact H1 | exact (proj1 (H2 (Bans.ChangeSearch "hack")))].
Defined.

(** ** The time that remains of a ban *)

(** X7. A ban without an end date shows "Permanent"; an end date that is not
    after the present shows "Expired"; otherwise, with [h] the whole hours
    that remain, the text is [h] and "h" under 24 hours (hence "0h" in the
    last hour) and else the whole days [h / 24] and the hours [h mod 24]. *)
Theorem formatTimeRemaining_cases (getTime : Date -> Z) (now bannedUntil : Date) :
  Bans.formatTimeRemaining getTime now None = "Permanent" /\
  (getTime bannedUntil <= getTime now ->
   Bans.formatTimeRemaining getTime now (Some bannedUntil) = "Expired") /\
  (getTime now < getTime bannedUntil ->
   let h := (getTime bannedUntil - getTime now) / 3600000 in
   Bans.formatTimeRemaining getTime now (Some bannedUntil) =
   if h <? 24
   then JS.Number_toString h +:+ "h"
   else JS.Number_toString (h / 24) +:+ "d " +:+ JS.Number_toString (h mod 24) +:+ "h").
Proof.
  split; [reflexivity|]. split.
  - intros Hle. unfold Bans.formatTimeRemaining.
    destruct (Z.leb_spec (getTime bannedUntil - getTime now) 0); [reflexivity | lia].
  - intros Hlt h. unfold Bans.formatTimeRemaining.
    set (diff := getTime bannedUntil - getTime now) in *.
    destruct (Z.leb_spec diff 0); [lia|].
    unfold JS.Math_floor_div, JS.rem.
    change (1000 * 60 * 60 * 24) with (3600000 * 24).
    change (1000 * 60 * 60) with 3600000.
    rewrite Z.rem_mod_nonneg by lia.
    rewrite <- Z.div_div by lia. fold h.
    rewrite Z.rem_mul_r by lia. fold h.
    rewrite (Z.mul_comm 3600000 (h mod 24)), Z.div_add by lia.
    rewrite (Z.div_small (diff mod 3600000)) by (apply Z.mod_pos_bound; lia).
    rewrite Z.add_0_l.
    assert (Hh : 0 <= h) by (apply Z.div_pos; lia).
    destruct (Z.ltb_spec h 24) as [Hs|Hb].
    + rewrite Z.div_small, Z.mod_small by lia. reflexivity.
    + destruct (Z.ltb_spec 0 (h / 24)) as [Hd|Hd]; [reflexivity|].
      pose proof (Z.div_le_lower_bound h 24 1 ltac:(lia) ltac:(lia)). lia.
Qed.

Lemma formatTimeRemaining_cases_witness :
  let getTime d := (((day d * 24 + hours d) * 60 + minutes d) * 60 + seconds d) * 1000 in
  Bans.formatTimeRemaining getTime (mkDate 2025 1 10 10 0 0)
    (Some (mkDate 2025 1 17 14 30 0)) = "7d 4h" /\
  Bans.formatTimeRemaining getTime (mkDate 2025 1 17 14 0 0)
    (Some (mkDate 2025 1 17 14 30 0)) = "0h" /\
  Bans.formatTimeRemaining getTime (mkDate 2025 1 17 14 30 0)
    (Some (mkDate 2025 1 17 14 30 0)) = "Expired".
Proof.
  intros getTime. split; [|split].
  - apply (proj2 (proj2 (formatTimeRemaining_cases getTime
             (mkDate 2025 1 10 10 0 0) (mkDate 2025 1 17 14 30 0)))).
    vm_compute. reflexivity.
  - apply (proj2 (proj2 (formatTimeRemaining_cases getTime
             (mkDate 2025 1 17 14 0 0) (mkDate 2025 1 17 14 30 0)))).
    vm_compute. reflexivity.
  - apply (proj1 (proj2 (formatTimeRemaining_cases getTime
             (mkDate 2025 1 17 14 30 0) (mkDate 2025 1 17 14 30 0)))).
    vm_compute. discriminate.
Defined.

(** ** The colours of a ban *)

(** X8. Each severity and each status of a ban record has colour classes of
    its own, none of them the grey classes of the default branch, which
    every other string gets. *)
Theorem bans_colors :
  (forall s : Bans.Severity,
      Bans.getSeverityColor (tag s) <> "bg-gray-500/20 text-gray-400 border-gray-500/30") /\
  (forall s1 s2 : Bans.Severity,
      Bans.getSeverityColor (tag s1) = Bans.getSeverityColor (tag s2) -> s1 = s2) /\
  (forall s : Bans.Status,
      Bans.getStatusColor (tag s) <> "bg-gray-500/20 text-gray-400") /\
  (forall s1 s2 : Bans.Status,
      Bans.getStatusColor (tag s1) = Bans.getStatusColor (tag s2) -> s1 = s2) /\
  (forall text : string,
      (forall s : Bans.Severity, text <> tag s) ->
      Bans.getSeverityColor text = "bg-gray-500/20 text-gray-400 border-gray-500/30") /\
  (forall text : string,
      (forall s : Bans.Status, text <> tag s) ->
      Bans.getStatusColor text = "bg-gray-500/20 text-gray-400").
Proof.
  split; [|split; [|split; [|split; [|split]]]].
  - intros []; vm_compute; discriminate.
  - intros [] []; vm_compute; intros H; reflexivity || discriminate H.
  - intros []; vm_compute; discriminate.
  - intros [] []; vm_compute; intros H; reflexivity || discriminate H.
  - intros text H. unfold Bans.getSeverityColor.
    destruct (String.eqb_spec text "minor") as [E|_]; [destruct (H Bans.minor E)|].
    destruct (String.eqb_spec text "major") as [E|_]; [destruct (H Bans.major E)|].
    destruct (String.eqb_spec text "severe") as [E|_]; [destruct (H Bans.severe E)|].
    reflexivity.
  - intros text H. unfold Bans.getStatusColor.
    destruct (String.eqb_spec text "active") as [E|_]; [destruct (H Bans.active E)|].
    destruct (String.eqb_spec text "expired") as [E|_]; [destruct (H Bans.expired E)|].
    destruct (String.eqb_spec text "appealed") as [E|_]; [destruct (H Bans.appealed E)|].
    reflexivity.
Qed.

Lemma bans_colors_witness :
  Bans.getSeverityColor "critical" = "bg-gray-500/20 text-gray-400 border-gray-500/30".
Proof.
  apply (proj1 (proj2 (proj2 (proj2 (proj2 bans_colors))))).
  intros []; vm_compute; discriminate.
Defined.

(** ** The open items of the FAQ *)

Lemma elem_of_toggleItem (i x : Z) (st : FAQ.State) :
  x ∈ FAQ.openItems (FAQ.toggleItem i st) <->
  (x = i /\ x ∉ FAQ.openItems st) \/ (x <> i /\ x ∈ FAQ.openItems st).
Proof.
  unfold FAQ.toggleItem. cbn [FAQ.openItems].
  destruct (decide (i ∈ FAQ.openItems st)) as [Hin|Hout].
  - rewrite elem_of_difference, elem_of_singleton.
    destruct (decide (x = i)) as [->|Hx]; tauto.
  - rewrite elem_of_union, elem_of_singleton.
    destruct (decide (x = i)) as [->|Hx]; tauto.
Qed.

Lemma isOpen_toggleItem (i x : Z) (st : FAQ.State) :
  FAQ.isOpen (FAQ.toggleItem i st) x = xorb (x =? i) (FAQ.isOpen st x).
Proof.
  destruct (FAQ.isOpen st x) eqn:Ho; unfold FAQ.isOpen in *;
    [apply bool_decide_eq_true in Ho | apply bool_decide_eq_false in Ho];
    destruct (Z.eqb_spec x i) as [E|E]; cbn [xorb];
    (apply bool_decide_eq_true_2 || apply bool_decide_eq_false_2);
    rewrite elem_of_toggleItem; tauto.
Qed.

(** X9. After any sequence of clicks on questions and on category buttons, a
    question has changed between open and closed exactly when it was
    clicked an odd number of times; from the first render, where all are
    closed, it is open exactly then. The clicks on categories and on other
    questions do not count. *)
Theorem faq_open_parity (events : list FAQ.Event) (id : Z) :
  (forall st, FAQ.isOpen (FAQ.run events st) id =
              xorb (Nat.odd (question_clicks id events)) (FAQ.isOpen st id)) /\
  FAQ.isOpen (FAQ.run events FAQ.initial) id = Nat.odd (question_clicks id events).
Proof.
  assert (H : forall st, FAQ.isOpen (FAQ.run events st) id =
                         xorb (Nat.odd (question_clicks id events)) (FAQ.isOpen st id)).
  { unfold FAQ.run, question_clicks.
    induction events as [|e events IH]; intros st.
    - reflexivity.
    - cbn [fold_left List.filter]. rewrite IH. destruct e as [c|j]; cbn [FAQ.handle].
      + reflexivity.
      + rewrite isOpen_toggleItem. rewrite (Z.eqb_sym id j).
        destruct (j =? id); cbn [length].
        * rewrite Nat.odd_succ, <- Nat.negb_odd.
          destruct (Nat.odd _), (FAQ.isOpen st id); reflexivity.
        * reflexivity. }
  split; [exact H|].
  rewrite H. unfold FAQ.isOpen, FAQ.initial. cbn [FAQ.openItems].
  rewrite bool_decide_eq_false_2 by apply not_elem_of_empty.
  apply xorb_false_r.
Qed.

(** X10. Two calls of [toggleItem] give the same state in either order. *)
Theorem toggleItem_commute (i j : Z) (st : FAQ.State) :
  FAQ.toggleItem i (FAQ.toggleItem j st) = FAQ.toggleItem j (FAQ.toggleItem i st).
Proof.
  assert (E : FAQ.openItems (FAQ.toggleItem i (FAQ.toggleItem j st)) =
              FAQ.openItems (FAQ.toggleItem j (FAQ.toggleItem i st))).
  { apply set_eq. intros x. rewrite !elem_of_toggleItem.
    destruct (decide (x = i)), (decide (x = j)); tauto. }
  unfold FAQ.toggleItem in *. cbn [FAQ.activeCategory FAQ.openItems] in *.
  f_equal. exact E.
Qed.

(** ** The category filter of the FAQ *)

Lemma concat_insert_once {A : Type} (F : string -> list A) (k : string) (x : A)
    (tags : list string) :
  List.NoDup tags -> In k tags ->
  Permutation
    (concat (map (fun t => if String.eqb k t then x :: F t else F t) tags))
    (x :: concat (map F tags)).
Proof.
  induction tags as [|t tags IH]; intros Hnd Hin; [destruct Hin|].
  apply List.NoDup_cons_iff in Hnd as [Hnot Hnd]. cbn [map concat].
  destruct (String.eqb_spec k t) as [->|Hne].
  - rewrite (map_ext_in _ F); [reflexivity|].
    intros t' Ht'. destruct (String.eqb_spec t t') as [->|_]; [contradiction | reflexivity].
  - destruct Hin as [E|Hin]; [congruence|].
    rewrite (IH Hnd Hin). symmetry. apply Permutation_middle.
Qed.

Lemma filteredFAQsOf_cons (x : FAQ.FAQItem) (data : list FAQ.FAQItem) (t : string) :
  t <> "all"%string ->
  FAQ.filteredFAQsOf (x :: data) t =
  if String.eqb (tag (FAQ.category x)) t
  then x :: FAQ.filteredFAQsOf data t
  else FAQ.filteredFAQsOf data t.
Proof.
  intros Ht. unfold FAQ.filteredFAQsOf.
  destruct (String.eqb_spec t "all"); [contradiction | reflexivity].
Qed.

(** X11. For every list of FAQ items, the lists behind the category buttons
    other than the first one, ['all'], hold every item of the list once
    between them: each item is under the button of its own category and
    under no other; and a category string that is no button's gives the
    empty list. *)
Theorem faq_categories_partition (data : list FAQ.FAQItem) :
  Permutation
    (concat (map (fun c => FAQ.filteredFAQsOf data (FAQ.category_id c))
                 (tail FAQ.categories)))
    data /\
  (forall (item : FAQ.FAQItem) (c : FAQ.Category),
      In item (FAQ.filteredFAQsOf data (tag c)) <->
      In item data /\ FAQ.category item = c) /\
  (forall text : string,
      ~ In text (map FAQ.category_id FAQ.categories) ->
      FAQ.filteredFAQsOf data text = []).
Proof.
  split; [|split].
  - rewrite <- (map_map FAQ.category_id (FAQ.filteredFAQsOf data)).
    set (tags := map FAQ.category_id (tail FAQ.categories)).
    assert (Hnd : List.NoDup tags).
    { subst tags. cbn. repeat (constructor; [cbn; intuition discriminate|]). constructor. }
    assert (Hall : forall t, In t tags -> t <> "all"%string).
    { subst tags. cbn. intros t Ht ->. intuition discriminate. }
    induction data as [|x data IH].
    + subst tags. reflexivity.
    + rewrite (map_ext_in _ (fun t => if String.eqb (tag (FAQ.category x)) t
                                      then x :: FAQ.filteredFAQsOf data t
                                      else FAQ.filteredFAQsOf data t))
        by (intros t Ht; apply filteredFAQsOf_cons, Hall, Ht).
      rewrite concat_insert_once.
      * apply Permutation_cons; [reflexivity | exact IH].
      * exact Hnd.
      * subst tags. destruct (FAQ.category x); cbn; auto 10.
  - intros item c.
    assert (E : FAQ.filteredFAQsOf data (tag c) =
                JS.filter (fun item => String.eqb (tag (FAQ.category item)) (tag c)) data)
      by (destruct c; reflexivity).
    rewrite E, filter_In, String.eqb_eq.
    split; intros [Hin Hc]; (split; [exact Hin|]).
    + destruct (FAQ.category item), c; (reflexivity || discriminate Hc).
    + rewrite Hc. reflexivity.
  - intros text Hnot. unfold FAQ.filteredFAQsOf.
    destruct (String.eqb_spec text "all") as [->|_].
    + destruct Hnot. simpl. auto.
    + induction data as [|x data IH]; [reflexivity|]. simpl.
      destruct (String.eqb_spec (tag (FAQ.category x)) text) as [E|_]; [|exact IH].
      destruct Hnot. rewrite <- E. destruct (FAQ.category x); simpl; auto 10.
Qed.

Lemma faq_categories_partition_witness :
  FAQ.filteredFAQsOf FAQ.faqData "billing" = [].
Proof.
  apply (proj2 (proj2 (faq_categories_partition FAQ.faqData))).
  simpl. intros H. repeat (destruct H as [H|H]; [discriminate H|]). exact H.
Defined.

(** ** The staff cards *)

(** X12. After [toggleCard id], the card [id] is expanded exactly when it was
    not before, and no other card is expanded; so in no state are two
    different cards expanded. *)
Theorem staff_one_card (st : Staff.State) :
  (forall id j,
      Staff.isExpanded (Staff.toggleCard id st) j =
      (j =? id) && negb (Staff.isExpanded st id)) /\
  (forall a b,
      Staff.isExpanded st a = true -> Staff.isExpanded st b = true -> a = b).
Proof.
  destruct st as [f c]. unfold Staff.isExpanded, Staff.toggleCard. cbn. split.
  - intros id j. destruct (Staff.is_card c id); cbn.
    + rewrite andb_false_r. reflexivity.
    + rewrite andb_true_r. apply Z.eqb_sym.
  - intros a b. destruct c as [c|]; cbn; [|discriminate].
    intros Ha Hb. apply Z.eqb_eq in Ha, Hb. congruence.
Qed.

Lemma staff_one_card_witness :
  let st := Staff.toggleCard 4 (Staff.toggleCard 2 Staff.initial) in
  Staff.isExpanded st 4 = true /\ Staff.isExpanded st 2 = false /\ (4 = 4).
Proof.
  intros st. split; [reflexivity|]. split; [reflexivity|].
  apply (proj2 (staff_one_card st) 4 4); reflexivity.
Defined.

(** ** The role buttons and the statistics of the staff *)

Lemma existsb_eqb_In (x : string) (set : list string) :
  existsb (String.eqb x) set = true <-> In x set.
Proof.
  rewrite existsb_exists. split.
  - intros [y [Hy E]]. apply String.eqb_eq in E. congruence.
  - intros H. exists x. split; [exact H | apply String.eqb_refl].
Qed.

Lemma Set_add_all_In (set l : list string) (x : string) :
  In x (JS.Set_add_all set l) <-> In x set \/ In x l.
Proof.
  revert set. induction l as [|y l IH]; intros set; cbn [JS.Set_add_all].
  - simpl. tauto.
  - rewrite IH. destruct (existsb (String.eqb y) set) eqn:E.
    + apply existsb_eqb_In in E. simpl. intuition congruence.
    + rewrite in_app_iff. simpl. tauto.
Qed.

Lemma Set_add_all_NoDup (set l : list string) :
  List.NoDup set -> List.NoDup (JS.Set_add_all set l).
Proof.
  revert set. induction l as [|y l IH]; intros set Hnd; cbn [JS.Set_add_all].
  - exact Hnd.
  - apply IH. destruct (existsb (String.eqb y) set) eqn:E; [exact Hnd|].
    apply List.NoDup_app; [exact Hnd | repeat constructor; simpl; tauto |].
    intros a Ha [<-|[]]. apply existsb_eqb_In in Ha. congruence.
Qed.

Lemma RoleType_tag_not_all (r : Staff.RoleType) : tag r <> "all"%string.
Proof. destruct r; discriminate. Qed.

(** X13. For every list of staff members: no role appears on two filter
    buttons; every member is shown under the button of the member's own
    role; a button other than ['all'] never shows an empty grid, since the
    buttons are made from the roles of the members; and ['all'] shows the
    whole list. *)
Theorem staff_role_buttons (members : list Staff.StaffMember) :
  List.NoDup (Staff.roleTypesOf members) /\
  (forall m, In m members ->
             In (tag (Staff.roleType m)) (Staff.roleTypesOf members) /\
             In m (Staff.filteredStaffOf members (tag (Staff.roleType m)))) /\
  (forall r, In r (Staff.roleTypesOf members) -> r <> "all"%string ->
             Staff.filteredStaffOf members r <> []) /\
  Staff.filteredStaffOf members "all" = members.
Proof.
  unfold Staff.roleTypesOf, JS.Array_from_Set.
  split; [|split; [|split]].
  - constructor.
    + rewrite Set_add_all_In, in_map_iff. intros [[]|[m [E _]]].
      exact (RoleType_tag_not_all _ E).
    + apply Set_add_all_NoDup. constructor.
  - intros m Hm. split.
    + right. apply Set_add_all_In. right. apply in_map_iff. eauto.
    + unfold Staff.filteredStaffOf.
      destruct (String.eqb_spec (tag (Staff.roleType m)) "all") as [E|_];
        [destruct (RoleType_tag_not_all _ E)|].
      apply filter_In. split; [exact Hm | apply String.eqb_refl].
  - intros r [E|Hr] Hne; [congruence|].
    apply Set_add_all_In in Hr as [[]|Hr]. apply in_map_iff in Hr as [m [E Hm]].
    unfold Staff.filteredStaffOf.
    destruct (String.eqb_spec r "all") as [|_]; [contradiction|].
    assert (Hin : In m (JS.filter (fun member => String.eqb (tag (Staff.roleType member)) r)
                                  members)).
    { apply filter_In. split; [exact Hm | apply String.eqb_eq; exact E]. }
    intros Hnil. rewrite Hnil in Hin. destruct Hin.
  - reflexivity.
Qed.

Lemma staff_role_buttons_witness :
  Staff.roleTypes = ["all"; "owner"; "admin"; "moderator"; "developer"; "builder"; "helper"]%string /\
  Staff.filteredStaffOf Staff.staffMembers "helper" <> [].
Proof.
  split; [reflexivity|].
  apply (proj1 (proj2 (proj2 (staff_role_buttons Staff.staffMembers)))).
  - vm_compute. auto 10.
  - discriminate.
Defined.




(** ** The podium and the list of the leaderboard *)

Lemma leaderboard_slice {A : Type} (l : list A) :
  JS.slice l 3 20 = take 17 (drop 3 l).
Proof. apply (slice_window l 3 17); lia. Qed.

(** X15. For every ranking list with three entries or more, the render
    builds the three podium cards from the first three entries, places 1
    to 3, and the list under the podium from the entries after them, up to
    the twentieth: the first twenty entries are each shown once, in order,
    and entries past the twentieth are not shown. With fewer than three
    entries the render throws a TypeError, reading the avatar of a podium
    place that has no entry, and shows nothing. For each tab the ranking,
    of twenty entries, is shown whole. *)
Theorem rankings_podium_and_list (l : list Rankings.Player) :
  let shown (card : Rankings.PodiumCard) :=
    (Rankings.card_name card, Rankings.card_level card, Rankings.card_avatar card) in
  let read (player : Rankings.Player) :=
    (Rankings.name player, Rankings.level player, Rankings.avatar player) in
  ((3 <= length l)%nat ->
   exists cards,
     Rankings.renderBoardOf l = Some (cards, JS.slice l 3 20) /\
     map shown cards = map read (take 3 l) /\
     map Rankings.card_position cards = [1; 2; 3] /\
     take 3 l ++ JS.slice l 3 20 = take 20 l) /\
  ((length l < 3)%nat -> Rankings.renderBoardOf l = None) /\
  (forall activeTab,
      exists cards,
        Rankings.renderBoard activeTab = Some (cards, Rankings.leaderboardEntries activeTab) /\
        map shown cards = map read (take 3 (Rankings.getCurrentRankings activeTab)) /\
        take 3 (Rankings.getCurrentRankings activeTab) ++ Rankings.leaderboardEntries activeTab
        = Rankings.getCurrentRankings activeTab).
Proof.
  intros shown read. split; [|split].
  - intros Hlen. destruct l as [|a [|b [|c l]]]; simpl in Hlen; try lia.
    eexists. split; [reflexivity|]. split; [reflexivity|]. split; [reflexivity|].
    rewrite leaderboard_slice. apply (take_take_drop (a :: b :: c :: l) 3 17).
  - intros Hlen. destruct l as [|a [|b [|c l]]]; simpl in Hlen; try lia; reflexivity.
  - intros activeTab. unfold Rankings.renderBoard, Rankings.leaderboardEntries,
      Rankings.getCurrentRankings.
    destruct (String.eqb activeTab "guilds"); [|destruct (String.eqb activeTab "kills")];
      (eexists; split; [reflexivity|]; split; reflexivity).
Qed.

Lemma rankings_podium_and_list_witness :
  Rankings.renderBoardOf (take 2 Rankings.killRankings) = None /\
  (exists cards,
      Rankings.renderBoardOf (take 3 Rankings.killRankings) = Some (cards, []) /\
      map Rankings.card_name cards = ["DeathBringer"; "SoulReaper"; "BloodHunter"]%string).
Proof.
  split.
  - apply (proj1 (proj2 (rankings_podium_and_list (take 2 Rankings.killRankings)))).
    vm_compute. lia.
  - destruct (proj1 (rankings_podium_and_list (take 3 Rankings.killRankings))
                ltac:(vm_compute; lia)) as (cards & H1 & H2 & _).
    exists cards. split; [exact H1|].
    apply (f_equal (map (fun x => fst (fst x)))) in H2. rewrite !map_map in H2. exact H2.
Defined.

(** X16. For every tab name, the data label and the ranking shown belong
    together: guild points with the guild ranking, kills with the kill
    ranking, and player points with the player ranking, which is also what
    a tab name other than the three known ones shows. *)
Theorem rankings_label_matches_data (activeTab : string) :
  (activeTab = "guilds"%string /\
   Rankings.getCurrentRankings activeTab = Rankings.guildRankings /\
   Rankings.getTabLabel activeTab = "Guild Points"%string) \/
  (activeTab = "kills"%string /\
   Rankings.getCurrentRankings activeTab = Rankings.killRankings /\
   Rankings.getTabLabel activeTab = "Kills"%string) \/
  (activeTab <> "guilds"%string /\ activeTab <> "kills"%string /\
   Rankings.getCurrentRankings activeTab = Rankings.playerRankings /\
   Rankings.getTabLabel activeTab = "Player Points"%string).
Proof.
  unfold Rankings.getCurrentRankings, Rankings.getTabLabel, Rankings.tabConfigs.
  cbn [JS.find Rankings.tab_id]. rewrite !(String.eqb_sym _ activeTab).
  destruct (String.eqb_spec activeTab "guilds") as [->|Hg]; [left; auto|].
  destruct (String.eqb_spec activeTab "kills") as [->|Hk]; [right; left; auto|].
  right; right.
  destruct (String.eqb_spec activeTab "players") as [->|Hp]; auto.
Qed.

(** ** The arrows of the carousel and the text that slides out *)

(** X17. On a valid index, the two arrows of the carousel undo each other. *)
Theorem carousel_arrows_inverse {A : Type} (bundles : list A) (i : Z) :
  0 <= i < JS.length bundles ->
  Shop.previousSlide bundles (Shop.nextSlide bundles i) = i /\
  Shop.nextSlide bundles (Shop.previousSlide bundles i) = i.
Proof.
  intros Hi. unfold Shop.previousSlide, Shop.nextSlide. split.
  - destruct (Z.ltb_spec i (JS.length bundles - 1)).
    + destruct (Z.ltb_spec 0 (i + 1)); lia.
    + destruct (Z.ltb_spec 0 0); lia.
  - destruct (Z.ltb_spec 0 i).
    + destruct (Z.ltb_spec (i - 1) (JS.length bundles - 1)); lia.
    + destruct (Z.ltb_spec (JS.length bundles - 1) (JS.length bundles - 1)); lia.
Qed.

Lemma carousel_arrows_inverse_witness :
  Shop.previousSlide Shop.bundles (Shop.nextSlide Shop.bundles 2) = 2 /\
  Shop.nextSlide Shop.bundles (Shop.previousSlide Shop.bundles 0) = 0.
Proof.
  split.
  - apply (proj1 (carousel_arrows_inverse Shop.bundles 2 ltac:(vm_compute; split; discriminate || reflexivity))).
  - apply (proj2 (carousel_arrows_inverse Shop.bundles 0 ltac:(vm_compute; split; discriminate || reflexivity))).
Defined.

(** X18. On a valid index of the text slider, the index that the render styles
    as sliding out is valid, it is the index that was current before the
    last tick, and with two texts or more it is not the current one. *)
Theorem slider_previous_index {A : Type} (sliderTexts : list A) (i : Z) :
  0 <= i < JS.length sliderTexts ->
  0 <= Hero.previousIndex sliderTexts i < JS.length sliderTexts /\
  Hero.previousIndex sliderTexts (Hero.tick sliderTexts i) = i /\
  Hero.tick sliderTexts (Hero.previousIndex sliderTexts i) = i /\
  (1 < JS.length sliderTexts -> Hero.previousIndex sliderTexts i <> i).
Proof.
  intros Hi. set (len := JS.length sliderTexts) in *.
  assert (Hprev : forall j, 0 <= j < len ->
            Hero.previousIndex sliderTexts j = if j =? 0 then len - 1 else j - 1).
  { intros j Hj. unfold Hero.previousIndex, JS.rem. fold len.
    rewrite Z.rem_mod_nonneg by lia.
    destruct (Z.eqb_spec j 0) as [->|Hne].
    - replace (0 - 1 + len) with (len - 1) by lia. apply Z.mod_small. lia.
    - replace (j - 1 + len) with (j - 1 + 1 * len) by lia.
      rewrite Z.mod_add by lia. apply Z.mod_small. lia. }
  assert (Htick : forall j, 0 <= j < len ->
            Hero.tick sliderTexts j = if j =? len - 1 then 0 else j + 1).
  { intros j Hj. rewrite tick_mod by (fold len; lia). fold len.
    destruct (Z.eqb_spec j (len - 1)) as [->|Hne].
    - replace (len - 1 + 1) with len by lia. apply Z.mod_same. lia.
    - apply Z.mod_small. lia. }
  rewrite (Hprev i Hi), (Htick i Hi).
  split; [|split; [|split]].
  - destruct (Z.eqb_spec i 0); lia.
  - destruct (Z.eqb_spec i (len - 1)).
    + rewrite Hprev by lia. rewrite Z.eqb_refl. lia.
    + rewrite Hprev by lia. destruct (Z.eqb_spec (i + 1) 0); lia.
  - destruct (Z.eqb_spec i 0).
    + rewrite Htick by lia. rewrite Z.eqb_refl. lia.
    + rewrite Htick by lia. destruct (Z.eqb_spec (i - 1) (len - 1)); lia.
  - intros Hlen. destruct (Z.eqb_spec i 0); lia.
Qed.

Lemma slider_previous_index_witness :
  Hero.previousIndex Hero.sliderTexts (Hero.tick Hero.sliderTexts 5) = 5.
Proof.
  apply (proj1 (proj2 (slider_previous_index Hero.sliderTexts 5
                         ltac:(vm_compute; split; discriminate || reflexivity)))).
Defined.

(** ** The simulated player counts *)

Lemma tick_moves (d : App.Draw * App.Draw) (c : App.Counts) :
  Z.abs (App.playerCount (App.tick d c) - App.playerCount c) <= 1 /\
  Z.abs (App.onlineCount (App.tick d c) - App.onlineCount c) <= 1.
Proof. destruct d as [[] []]; simpl; lia. Qed.

(** X19. Each firing of the interval moves each of the two counts by one at
    most, so after [n] firings a count is within [n] of its start; but
    nothing keeps a count from falling below zero, nor the players online
    from exceeding the players in total. *)
Theorem simulated_counts (draws : list (App.Draw * App.Draw)) (c : App.Counts) :
  Z.abs (App.playerCount (App.ticks draws c) - App.playerCount c) <= JS.length draws /\
  Z.abs (App.onlineCount (App.ticks draws c) - App.onlineCount c) <= JS.length draws /\
  (exists draws', App.onlineCount (App.ticks draws' App.initial) < 0) /\
  (exists draws', App.playerCount (App.ticks draws' App.initial)
                  < App.onlineCount (App.ticks draws' App.initial)).
Proof.
  assert (H : Z.abs (App.playerCount (App.ticks draws c) - App.playerCount c)
              <= JS.length draws /\
              Z.abs (App.onlineCount (App.ticks draws c) - App.onlineCount c)
              <= JS.length draws).
  { unfold App.ticks, JS.length. revert c.
    induction draws as [|d draws IH]; intros c.
    - simpl. lia.
    - cbn [fold_left length]. specialize (IH (App.tick d c)).
      pose proof (tick_moves d c). lia. }
  destruct H as [H1 H2]. split; [exact H1|]. split; [exact H2|]. split.
  - exists (repeat (App.One, App.Zero) 140). vm_compute. reflexivity.
  - exists (repeat (App.Zero, App.Two) 61). vm_compute. reflexivity.
Qed.
